(** * Shallow embedding of [docs/decode_capture.py]

    The script decodes nine USB HID report buffers into a flat key-mapping
    blob ([reconstruct_data]), reads 4-byte firmware codes out of it
    ([get_firmware_code]), and reads the capture file and the KB.ini key
    catalog ([parse_buffers], [parse_kb_ini]); [main] ties them together
    and prints either a sample of slots or the catalog's table.

    Python effects are modelled by a small monad [PyM]: the [print] calls
    append to a log of diagnostics, and a raised exception ([IndexError],
    [ValueError]) aborts the computation. Python [bytes] are lists of
    [Byte.byte]; Python ints are [Z]. *)

From Stdlib Require Import Strings.String Strings.Ascii Strings.Byte.
From Stdlib Require Import ZArith Lia List Bool.
From Stdlib Require Import Sorting.Sorted Sorting.Permutation.
Import ListNotations.
Open Scope Z_scope.

(** ** Python effects *)

Inductive exc := IndexError | ValueError.

Inductive outcome (A : Type) :=
| Ret (a : A)
| Raise (e : exc).
Arguments Ret {A} a.
Arguments Raise {A} e.

(** The lines the script prints, with the values it formats into them. *)
Inductive diag :=
| WarnBufferCount (found : nat)          (* "Warning: Expected 9 buffers, found {n}" *)
| UnknownBuffer0Format (head : list byte). (* "Unknown buffer 0 format: {buf[:5].hex()}" *)

Definition PyM (A : Type) : Type := list diag -> list diag * outcome A.

Definition ret {A} (a : A) : PyM A := fun log => (log, Ret a).
Definition raise {A} (e : exc) : PyM A := fun log => (log, Raise e).
Definition print (d : diag) : PyM unit := fun log => (log ++ [d], Ret tt).
Definition bind {A B} (m : PyM A) (k : A -> PyM B) : PyM B :=
  fun log => match m log with
             | (log', Ret a) => k a log'
             | (log', Raise e) => (log', Raise e)
             end.

Notation "x <- m ;; k" := (bind m (fun x => k))
  (at level 61, m at next level, right associativity).
Notation "m ;;; k" := (bind m (fun _ => k))
  (at level 61, right associativity).

(** Run from an empty output. *)
Definition run {A} (m : PyM A) : list diag * outcome A := m [].

(** ** Python sequences *)

(** [bytes] items are ints in 0..255. *)
Definition bval (b : byte) : Z := Z.of_N (Byte.to_N b).

(** [l[i]]: negative indices count from the end; out of range raises. *)
Definition py_index {A} (l : list A) (i : Z) : PyM A :=
  let n := Z.of_nat (length l) in
  let j := if i <? 0 then i + n else i in
  if (j <? 0) || (n <=? j) then raise IndexError
  else match nth_error l (Z.to_nat j) with
       | Some x => ret x
       | None => raise IndexError
       end.

(** Slice bound normalisation: negative bounds count from the end, then
    everything is clamped to [0, len]. *)
Definition py_slice_bound (n i : Z) : Z :=
  if i <? 0 then Z.max 0 (i + n) else Z.min i n.

(** [l[start:stop]]; slicing never raises. *)
Definition py_slice {A} (l : list A) (start stop : Z) : list A :=
  let n := Z.of_nat (length l) in
  let s := py_slice_bound n start in
  let e := py_slice_bound n stop in
  firstn (Z.to_nat (e - s)) (skipn (Z.to_nat s) l).

(** [l[start:]]. *)
Definition py_slice_from {A} (l : list A) (start : Z) : list A :=
  py_slice l start (Z.of_nat (length l)).

(** ** [reconstruct_data] *)

(** The body of the loop for [i == 0]: the payload of buffer 0. *)
Definition buffer0_payload (buf : list byte) : PyM (list byte) :=
  b3 <- py_index buf 3 ;;
  is_5 <- (if Byte.eqb b3 x01
           then b4 <- py_index buf 4 ;; ret (Byte.eqb b4 xf8)
           else ret false) ;;
  if is_5 then ret (py_slice_from buf 5)
  else
    b3' <- py_index buf 3 ;;
    if Byte.eqb b3' xf8 then ret (py_slice_from buf 4)
    else print (UnknownBuffer0Format (py_slice buf 0 5)) ;;;
         ret (py_slice_from buf 3).

(** [for i, buf in enumerate(buffers)], with [full_data] threaded. *)
Fixpoint reconstruct_loop (i : nat) (buffers : list (list byte))
    (full_data : list byte) : PyM (list byte) :=
  match buffers with
  | [] => ret full_data
  | buf :: rest =>
      payload <- (if Nat.eqb i 0 then buffer0_payload buf
                  else ret (py_slice_from buf 3)) ;;
      reconstruct_loop (S i) rest (full_data ++ payload)
  end.

Definition reconstruct_data (buffers : list (list byte)) : PyM (list byte) :=
  reconstruct_loop 0 buffers [].

(** ** [get_firmware_code] *)

Definition get_firmware_code (data : list byte) (bindex : Z) : PyM (option Z) :=
  let offset := bindex * 4 in
  if Z.of_nat (length data) <? offset + 4 then ret None
  else
    let b := py_slice data offset (offset + 4) in
    b0 <- py_index b 0 ;;
    b1 <- py_index b 1 ;;
    b2 <- py_index b 2 ;;
    b3 <- py_index b 3 ;;
    ret (Some (Z.lor (Z.lor (Z.lor (Z.shiftl (bval b0) 24)
                                   (Z.shiftl (bval b1) 16))
                            (Z.shiftl (bval b2) 8))
                     (bval b3))).

(** Byte orders as the spec describes them: byte 0 most significant
    (big-endian) or least significant (little-endian). *)
Definition be32 (b0 b1 b2 b3 : byte) : Z :=
  bval b0 * 2^24 + bval b1 * 2^16 + bval b2 * 2^8 + bval b3.
Definition le32 (b0 b1 b2 b3 : byte) : Z :=
  bval b3 * 2^24 + bval b2 * 2^16 + bval b1 * 2^8 + bval b0.

(** ** Python [str] operations on ASCII text *)

Local Open Scope char_scope.

(** [str.isspace] on ASCII: \t \n \v \f \r, \x1c..\x1f and space. *)
Definition is_space (c : ascii) : bool :=
  let n := nat_of_ascii c in
  (Nat.leb 9 n && Nat.leb n 13) || (Nat.leb 28 n && Nat.leb n 32).

Fixpoint drop_spaces (cs : list ascii) : list ascii :=
  match cs with
  | c :: t => if is_space c then drop_spaces t else cs
  | [] => []
  end.

(** [s.strip()]. *)
Definition strip (s : string) : string :=
  string_of_list_ascii
    (rev (drop_spaces (rev (drop_spaces (list_ascii_of_string s))))).

(** [s.replace(' ', '')]. *)
Definition remove_blanks (s : string) : string :=
  string_of_list_ascii
    (filter (fun c => negb (Ascii.eqb c " ")) (list_ascii_of_string s)).

(** [s.startswith(p)]. *)
Definition startswith (s p : string) : bool := String.prefix p s.

(** [c in s]. *)
Definition contains (c : ascii) (s : string) : bool :=
  existsb (Ascii.eqb c) (list_ascii_of_string s).

(** [s.split(sep, 1)] when [sep] occurs in [s]. *)
Fixpoint split_once_l (sep : ascii) (cs : list ascii) : list ascii * list ascii :=
  match cs with
  | [] => ([], [])
  | c :: t =>
      if Ascii.eqb c sep then ([], t)
      else let (a, b) := split_once_l sep t in (c :: a, b)
  end.

Definition split_once (sep : ascii) (s : string) : string * string :=
  let (a, b) := split_once_l sep (list_ascii_of_string s) in
  (string_of_list_ascii a, string_of_list_ascii b).

(** [s.split(sep)] for a one-character [sep]: always at least one field. *)
Fixpoint split_l (sep : ascii) (cs : list ascii) : list (list ascii) :=
  match cs with
  | [] => [[]]
  | c :: t =>
      if Ascii.eqb c sep then [] :: split_l sep t
      else match split_l sep t with
           | f :: fs => (c :: f) :: fs
           | [] => [[c]]
           end
  end.

Definition split (sep : ascii) (s : string) : list string :=
  map string_of_list_ascii (split_l sep (list_ascii_of_string s)).

(** ** [int(s)] for a [str] argument, base 10 *)

Definition digit_val (c : ascii) : option Z :=
  let n := nat_of_ascii c in
  if Nat.leb 48 n && Nat.leb n 57 then Some (Z.of_nat n - 48)%Z else None.

(** Digits, with single underscores allowed between two digits. *)
Fixpoint digits_acc (acc : Z) (cs : list ascii) : option Z :=
  match cs with
  | [] => Some acc
  | c :: t =>
      match digit_val c with
      | Some d => digits_acc (acc * 10 + d)%Z t
      | None =>
          if Ascii.eqb c "_" then
            match t with
            | c' :: t' =>
                match digit_val c' with
                | Some d => digits_acc (acc * 10 + d)%Z t'
                | None => None
                end
            | [] => None
            end
          else None
      end
  end.

Definition parse_digits (cs : list ascii) : option Z :=
  match cs with
  | c :: t => match digit_val c with Some d => digits_acc d t | None => None end
  | [] => None
  end.

Definition py_int (s : string) : PyM Z :=
  let cs := list_ascii_of_string (strip s) in
  let '(sign, body) :=
    match cs with
    | "-" :: t => ((-1)%Z, t)
    | "+" :: t => (1%Z, t)
    | _ => (1%Z, cs)
    end in
  match parse_digits body with
  | Some n => ret (sign * n)%Z
  | None => raise ValueError
  end.

(** ** [bytes.fromhex(s)] *)

(** [Py_ISSPACE]: ASCII whitespace skipped between byte pairs. *)
Definition hex_space (c : ascii) : bool :=
  let n := nat_of_ascii c in
  (Nat.leb 9 n && Nat.leb n 13) || Nat.eqb n 32.

Definition hex_val (c : ascii) : option N :=
  let n := N_of_ascii c in
  if (48 <=? n)%N && (n <=? 57)%N then Some (n - 48)%N
  else if (97 <=? n)%N && (n <=? 102)%N then Some (n - 87)%N
  else if (65 <=? n)%N && (n <=? 70)%N then Some (n - 55)%N
  else None.

Fixpoint fromhex_l (cs : list ascii) : PyM (list byte) :=
  match cs with
  | [] => ret []
  | c :: t =>
      if hex_space c then fromhex_l t
      else match t with
           | c' :: t' =>
               match hex_val c, hex_val c' with
               | Some hi, Some lo =>
                   match Byte.of_N (hi * 16 + lo) with
                   | Some b => rest <- fromhex_l t' ;; ret (b :: rest)
                   | None => raise ValueError
                   end
               | _, _ => raise ValueError
               end
           | [] => raise ValueError
           end
  end.

Definition fromhex (s : string) : PyM (list byte) :=
  fromhex_l (list_ascii_of_string s).

(** A list comprehension over a list: evaluated left to right. *)
Fixpoint py_map {A B} (f : A -> PyM B) (l : list A) : PyM (list B) :=
  match l with
  | [] => ret []
  | x :: t => y <- f x ;; ys <- py_map f t ;; ret (y :: ys)
  end.

(** ** [parse_buffers]: the capture file given as the lines [for l in f]
    yields. *)
Definition parse_buffers (file_lines : list string) : PyM (list (list byte)) :=
  let lines := map (fun l => remove_blanks (strip l))
                   (filter (fun l => negb (String.eqb (strip l) "")) file_lines) in
  let buffer_lines := filter (fun l => startswith l "0a09") lines in
  (if negb (Nat.eqb (length buffer_lines) 9)
   then print (WarnBufferCount (length buffer_lines)) else ret tt) ;;;
  py_map fromhex (firstn 9 buffer_lines).

(** ** [parse_kb_ini]: the KB.ini file given as its lines. *)
Fixpoint kb_loop (in_key_section : bool) (file_lines : list string)
    (keys : list (string * string * Z)) : PyM (list (string * string * Z)) :=
  match file_lines with
  | [] => ret keys
  | raw :: rest =>
      let line := strip raw in
      if String.eqb line "[KEY]" then kb_loop true rest keys
      else
        let in_key_section := if startswith line "[" then false else in_key_section in
        if negb in_key_section || negb (startswith line "K") then
          kb_loop in_key_section rest keys
        else if negb (contains "=" line) then kb_loop in_key_section rest keys
        else
          let (key_name, value) := split_once "=" line in
          let parts := split "," value in
          if Nat.leb 8 (length parts) then
            p5 <- py_index parts 5 ;;
            let vk_code := strip p5 in
            p7 <- py_index parts 7 ;;
            bindex <- py_int (strip p7) ;;
            kb_loop in_key_section rest (keys ++ [(key_name, vk_code, bindex)])
          else kb_loop in_key_section rest keys
  end.

Definition parse_kb_ini (file_lines : list string) : PyM (list (string * string * Z)) :=
  kb_loop false file_lines [].

Local Close Scope char_scope.

(** ** Spec-side header lengths

    The number of leading bytes of the report at position [i] that the
    spec calls header: for position 0 it depends on bytes 3 and 4, for the
    other positions it is 3. *)
Definition header_len (i : nat) (buf : list byte) : nat :=
  if Nat.eqb i 0 then
    if Byte.eqb (nth 3 buf x00) x01 && Byte.eqb (nth 4 buf x00) xf8 then 5
    else if Byte.eqb (nth 3 buf x00) xf8 then 4
    else 3
  else 3.

(** The first buffer's payload, by the three cases of its header. *)
Definition buffer0_result (buf0 : list byte) : list diag * list byte :=
  if Byte.eqb (nth 3 buf0 x00) x01 && Byte.eqb (nth 4 buf0 x00) xf8
  then ([], skipn 5 buf0)
  else if Byte.eqb (nth 3 buf0 x00) xf8 then ([], skipn 4 buf0)
  else ([UnknownBuffer0Format (firstn 5 buf0)], skipn 3 buf0).

(** ** The end-to-end scenario of the spec

    Buffer 0 is [0a 09 01 f8] followed by filler [f0]; each buffer at
    positions 1..8 is [0a 09], a position byte and filler. *)
Definition scenario_buffers (f0 : list byte) (fs : list (byte * list byte))
  : list (list byte) :=
  ([x0a; x09; x01; xf8] ++ f0) :: map (fun '(p, f) => [x0a; x09; p] ++ f) fs.

(** The scenario with 65-byte reports and zero filler. *)
Definition scenario_zero : list (list byte) :=
  scenario_buffers (repeat x00 61)
    (map (fun p => (p, repeat x00 62)) [x01; x02; x03; x04; x05; x06; x07; x08]).

(** ** Swapping two reports *)

(** [l[k] = y] for an in-range [k]; out of range the list is unchanged. *)
Fixpoint replace_at {A} (k : nat) (y : A) (l : list A) : list A :=
  match l, k with
  | [], _ => []
  | _ :: t, O => y :: t
  | x :: t, S k' => x :: replace_at k' y t
  end.

(** [l[i], l[j] = l[j], l[i]]. *)
Definition swap_at {A} (i j : nat) (l : list A) : list A :=
  match nth_error l i, nth_error l j with
  | Some x, Some y => replace_at j x (replace_at i y l)
  | _, _ => l
  end.

(** Where the payload of the report at position [p] starts in the blob:
    the total payload length of the reports before it. *)
Definition payload_start (bufs : list (list byte)) (p : nat) : nat :=
  list_sum (map (fun '(i, b) => length b - header_len i b)%nat
                (combine (seq 0 p) bufs)).

(** The number of hex digits in a capture line: its characters other than
    the whitespace [bytes.fromhex] skips. *)
Definition hex_digit_count (s : string) : nat :=
  length (filter (fun c => negb (hex_space c)) (list_ascii_of_string s)).

(** The capture lines [parse_buffers] selects: non-blank lines, stripped
    and with blanks removed, that start with [0a09]. *)
Definition selected_lines (file_lines : list string) : list string :=
  filter (fun l => startswith l "0a09")
    (map (fun l => remove_blanks (strip l))
         (filter (fun l => negb (String.eqb (strip l) "")) file_lines)).

(** ** [bytes.hex()], the inverse of [bytes.fromhex] on well-formed text:
    two lower-case hex digits per byte. *)
Definition hex_digit_char (n : N) : ascii :=
  ascii_of_N (if (n <? 10)%N then 48 + n else 87 + n)%N.

Definition byte_hex_chars (b : byte) : list ascii :=
  [hex_digit_char (Byte.to_N b / 16)%N; hex_digit_char (Byte.to_N b mod 16)%N].

Definition bytes_hex (bs : list byte) : string :=
  string_of_list_ascii (flat_map byte_hex_chars bs).

(** [sep.join(fields)] for a one-character separator. *)
Fixpoint join_l (sep : ascii) (fs : list (list ascii)) : list ascii :=
  match fs with
  | [] => []
  | [f] => f
  | f :: t => f ++ sep :: join_l sep t
  end.

(** ** [main]

    The command line is [argv] (with [argv[0]] the script name); the file
    system maps a path to the lines [for l in f] yields, or to [None] when
    [open] fails. Each [print] of [main] is one [main_line], carrying the
    values the f-string formats. *)
Inductive main_line :=
| MUsage                                   (* "Usage: python3 decode_capture.py ..." *)
| MDiag (d : diag)                         (* a line printed by a helper *)
| MParsed (n : nat)                        (* "Parsed {len(buffers)} buffers" *)
| MReconstructed (n : nat)                 (* "Reconstructed {len(data)} bytes ..." *)
| MTableHeader                             (* "Key VK Code bIndex Offset Firmware Code" *)
| MTableRule                               (* "-" * 60 *)
| MRow (key vk : string) (bindex offset code : Z)
                                           (* "{key_name} {vk_code} {bindex} {bindex*4} 0x{fw_code:08x}" *)
| MSampleHeader                            (* "Sample firmware codes ..." *)
| MSample (bindex offset code : Z).        (* "bIndex {bindex} (offset {bindex*4}) -> 0x{fw_code:08x}" *)

(** How [main] stops early: [sys.exit], an uncaught exception, or a file
    that cannot be opened. *)
Inductive main_end :=
| MExit (code : Z)
| MRaised (e : exc)
| MFileNotFound (path : string).

Definition MainM (A : Type) : Type :=
  list main_line -> list main_line * (A + main_end).

Definition mret {A} (a : A) : MainM A := fun out => (out, inl a).
Definition mstop {A} (e : main_end) : MainM A := fun out => (out, inr e).
Definition mprint (l : main_line) : MainM unit := fun out => (out ++ [l], inl tt).
Definition mbind {A B} (m : MainM A) (k : A -> MainM B) : MainM B :=
  fun out => match m out with
             | (out', inl a) => k a out'
             | (out', inr e) => (out', inr e)
             end.

Notation "x <~ m ;; k" := (mbind m (fun x => k))
  (at level 61, m at next level, right associativity).
Notation "m ~;; k" := (mbind m (fun _ => k))
  (at level 61, right associativity).

(** Call a helper: its prints go to the output, its exception ends [main]. *)
Definition lift {A} (m : PyM A) : MainM A :=
  fun out => let (log, r) := run m in
             (out ++ map MDiag log,
              match r with Ret a => inl a | Raise e => inr (MRaised e) end).

(** [open(path)]. *)
Definition mopen (fs : string -> option (list string)) (path : string)
  : MainM (list string) :=
  match fs path with
  | Some lines => mret lines
  | None => mstop (MFileNotFound path)
  end.

(** [sorted(keys, key=lambda x: x[2])]: a stable sort on the bIndex. *)
Definition kb_bindex (k : string * string * Z) : Z :=
  let '(_, _, b) := k in b.

Fixpoint insert_by_bindex (x : string * string * Z) (l : list (string * string * Z))
  : list (string * string * Z) :=
  match l with
  | [] => [x]
  | y :: t => if kb_bindex x <? kb_bindex y then x :: l
              else y :: insert_by_bindex x t
  end.

Definition sort_by_bindex (l : list (string * string * Z)) : list (string * string * Z) :=
  fold_left (fun acc x => insert_by_bindex x acc) l [].

(** The loop over the sorted catalog keys. *)
Fixpoint print_rows (data : list byte) (keys : list (string * string * Z)) : MainM unit :=
  match keys with
  | [] => mret tt
  | (key_name, vk_code, bindex) :: t =>
      fw_code <~ lift (get_firmware_code data bindex) ;;
      (match fw_code with
       | Some c => mprint (MRow key_name vk_code bindex (bindex * 4) c)
       | None => mret tt
       end) ~;;
      print_rows data t
  end.

Definition sample_bindexes : list Z := [0; 1; 2; 3; 4; 5; 10; 20; 50; 53].

(** The loop over the sample slots. *)
Fixpoint print_samples (data : list byte) (idxs : list Z) : MainM unit :=
  match idxs with
  | [] => mret tt
  | bindex :: t =>
      fw_code <~ lift (get_firmware_code data bindex) ;;
      (match fw_code with
       | Some c => mprint (MSample bindex (bindex * 4) c)
       | None => mret tt
       end) ~;;
      print_samples data t
  end.

Definition main_prog (argv : list string) (fs : string -> option (list string))
  : MainM unit :=
  if Nat.ltb (length argv) 2 then mprint MUsage ~;; mstop (MExit 1)
  else
    let capture_file := nth 1 argv ""%string in
    let kb_ini_file := if Nat.ltb 2 (length argv) then Some (nth 2 argv ""%string)
                       else None in
    lines <~ mopen fs capture_file ;;
    buffers <~ lift (parse_buffers lines) ;;
    mprint (MParsed (length buffers)) ~;;
    data <~ lift (reconstruct_data buffers) ;;
    mprint (MReconstructed (length data)) ~;;
    (* [if kb_ini_file:] is false for [None] and for the empty string *)
    match kb_ini_file with
    | Some path =>
        if String.eqb path "" then
          mprint MSampleHeader ~;; print_samples data sample_bindexes
        else
          kb_lines <~ mopen fs path ;;
          keys <~ lift (parse_kb_ini kb_lines) ;;
          mprint MTableHeader ~;;
          mprint MTableRule ~;;
          print_rows data (sort_by_bindex keys)
    | None => mprint MSampleHeader ~;; print_samples data sample_bindexes
    end.

Definition main (argv : list string) (fs : string -> option (list string))
  : list main_line * (unit + main_end) :=
  main_prog argv fs [].

(** The printed table rows and sample lines of an output. *)
Definition rows_of (out : list main_line) : list (string * string * Z * Z * Z) :=
  flat_map (fun l => match l with
                     | MRow k v b o c => [(k, v, b, o, c)]
                     | _ => []
                     end) out.

Definition samples_of (out : list main_line) : list (Z * Z * Z) :=
  flat_map (fun l => match l with
                     | MSample b o c => [(b, o, c)]
                     | _ => []
                     end) out.

(** The big-endian code of slot [i] of [data] (spec-side reading). *)
Definition code_at (data : list byte) (i : Z) : Z :=
  let o := Z.to_nat (i * 4) in
  be32 (nth o data x00) (nth (o + 1) data x00) (nth (o + 2) data x00)
       (nth (o + 3) data x00).

(** ** Sanity checks on small inputs *)

Example gfc_ex1 : run (get_firmware_code [x01;x02;x03;x04;x05] 0) = ([], Ret (Some 16909060)).
Proof. reflexivity. Qed.
Example gfc_ex2 : run (get_firmware_code [x01;x02;x03;x04;x05] 1) = ([], Ret None).
Proof. reflexivity. Qed.
Example gfc_ex3 : run (get_firmware_code [x01;x02;x03;x04;x05] (-1)) = ([], Raise IndexError).
Proof. reflexivity. Qed.
Example rd_ex1 : run (reconstruct_data [[x0a;x09;x01;xf8;x07;x08]; [x0a;x09;x02;x09]])
  = ([], Ret [x07;x08;x09]).
Proof. reflexivity. Qed.
Example rd_ex2 : run (reconstruct_data [[x0a;x09;x01;x02;x07;x08]])
  = ([UnknownBuffer0Format [x0a;x09;x01;x02;x07]], Ret [x02;x07;x08]).
Proof. reflexivity. Qed.

Example kb_ex1 : run (parse_kb_ini ["[KEY]"; "K1=0,0,10,10,0,0x41,0,5"; "[OTHER]"; "K2=0,0,10,10,0,0x42,0,6"]%string)
  = ([], Ret [("K1", "0x41", 5)]%string).
Proof. reflexivity. Qed.
Example kb_ex2 : run (parse_kb_ini ["[KEY]"; "K1=0,0,10,10,0,0x41,0, 1_0 "; "K2=1,2"]%string)
  = ([], Ret [("K1", "0x41", 10)]%string).
Proof. reflexivity. Qed.
Example pb_ex1 : run (parse_buffers ["  0a 09 01 f8 "; "zz"; ""; "0A09"]%string)
  = ([WarnBufferCount 1], Ret [[x0a;x09;x01;xf8]]).
Proof. reflexivity. Qed.

Example main_ex1 :
  main ["decode_capture.py"; "cap.txt"]%string
    (fun p => if String.eqb p "cap.txt" then Some [bytes_hex [x0a; x09; x01; xf8; x01; x02; x03; x04; x05]] else None)
  = ([MDiag (WarnBufferCount 1); MParsed 1; MReconstructed 5; MSampleHeader;
      MSample 0 0 16909060], inl tt).
Proof. reflexivity. Qed.

(** ** Properties of the Python sequence primitives *)

Lemma py_index_nat {A} (l : list A) (k : nat) (d : A) :
  (k < length l)%nat -> py_index l (Z.of_nat k) = ret (nth k l d).
Proof.
  intros Hk. unfold py_index.
  assert (E1 : (Z.of_nat k <? 0) = false) by (apply Z.ltb_ge; lia).
  assert (E2 : (Z.of_nat (length l) <=? Z.of_nat k) = false)
    by (apply Z.leb_gt; lia).
  rewrite E1. cbn zeta. rewrite E1, E2. simpl.
  rewrite Nat2Z.id, (nth_error_nth' l d Hk). reflexivity.
Qed.

Lemma py_slice_from_nat {A} (l : list A) (k : nat) :
  py_slice_from l (Z.of_nat k) = skipn k l.
Proof.
  unfold py_slice_from, py_slice, py_slice_bound.
  replace (Z.of_nat k <? 0) with false by (symmetry; apply Z.ltb_ge; lia).
  replace (Z.of_nat (length l) <? 0) with false by (symmetry; apply Z.ltb_ge; lia).
  rewrite Z.min_id. destruct (Nat.le_gt_cases k (length l)) as [Hle | Hgt].
  - rewrite Z.min_l by lia. rewrite Nat2Z.id.
    apply firstn_all2. rewrite length_skipn. lia.
  - rewrite Z.min_r by lia. rewrite Nat2Z.id, Z.sub_diag. simpl.
    symmetry. apply skipn_all2. lia.
Qed.

Lemma py_slice_head {A} (l : list A) (k : nat) :
  py_slice l 0 (Z.of_nat k) = firstn k l.
Proof.
  unfold py_slice, py_slice_bound. cbn zeta.
  replace (Z.of_nat k <? 0) with false by (symmetry; apply Z.ltb_ge; lia).
  change (0 <? 0) with false. cbv iota.
  rewrite (Z.min_l 0) by lia. rewrite Z.sub_0_r.
  change (Z.to_nat 0) with 0%nat. rewrite skipn_O. destruct (Nat.le_gt_cases k (length l)) as [Hle | Hgt].
  - rewrite Z.min_l by lia. rewrite Nat2Z.id. reflexivity.
  - rewrite Z.min_r by lia. rewrite Nat2Z.id, firstn_all, firstn_all2 by lia.
    reflexivity.
Qed.

(** ** Reassembly *)

(** Buffers after the first contribute [buf[3:]] each, in order, and the
    loop prints nothing for them. *)
Lemma reconstruct_loop_tail (i : nat) (rest : list (list byte)) acc log :
  reconstruct_loop (S i) rest acc log
  = (log, Ret (acc ++ concat (map (skipn 3) rest))).
Proof.
  revert i acc. induction rest as [|buf rest IH]; intros i acc.
  - simpl. rewrite app_nil_r. reflexivity.
  - simpl. unfold bind at 1, ret at 1.
    change 3%Z with (Z.of_nat 3). rewrite py_slice_from_nat, IH, app_assoc.
    reflexivity.
Qed.

Lemma py_index_Z {A} (l : list A) (z : Z) (d : A) :
  0 <= z -> (Z.to_nat z < length l)%nat ->
  py_index l z = ret (nth (Z.to_nat z) l d).
Proof.
  intros Hz Hk. rewrite <- (py_index_nat l _ d Hk), Z2Nat.id by lia.
  reflexivity.
Qed.

Lemma py_index_oob {A} (l : list A) (z : Z) :
  0 <= z -> Z.of_nat (length l) <= z -> py_index l z = raise IndexError.
Proof.
  intros Hz Hl. unfold py_index.
  replace (z <? 0) with false by (symmetry; apply Z.ltb_ge; lia).
  replace (Z.of_nat (length l) <=? z) with true by (symmetry; apply Z.leb_le; lia).
  rewrite orb_true_r. reflexivity.
Qed.

Lemma py_slice_from_Z {A} (l : list A) (z : Z) :
  0 <= z -> py_slice_from l z = skipn (Z.to_nat z) l.
Proof. intros Hz. rewrite <- py_slice_from_nat, Z2Nat.id by lia. reflexivity. Qed.

Lemma py_slice_head_Z {A} (l : list A) (z : Z) :
  0 <= z -> py_slice l 0 z = firstn (Z.to_nat z) l.
Proof. intros Hz. rewrite <- py_slice_head, Z2Nat.id by lia. reflexivity. Qed.

Lemma buffer0_payload_spec (buf0 : list byte) log :
  (5 <= length buf0)%nat ->
  buffer0_payload buf0 log
  = (log ++ fst (buffer0_result buf0), Ret (snd (buffer0_result buf0))).
Proof.
  intros Hlen. unfold buffer0_payload, buffer0_result.
  rewrite (py_index_Z buf0 3 x00), (py_index_Z buf0 4 x00) by (simpl; lia).
  rewrite !py_slice_from_Z, py_slice_head_Z by lia.
  change (Z.to_nat 3) with 3%nat; change (Z.to_nat 4) with 4%nat;
  change (Z.to_nat 5) with 5%nat.
  unfold bind, ret, print.
  destruct (Byte.eqb (nth 3 buf0 x00) x01) eqn:E1;
    [destruct (Byte.eqb (nth 4 buf0 x00) xf8) eqn:E2|];
    cbn beta iota.
  - rewrite app_nil_r. reflexivity.
  - apply Byte.byte_dec_bl in E1. rewrite E1. reflexivity.
  - destruct (Byte.eqb (nth 3 buf0 x00) xf8); [rewrite app_nil_r|]; reflexivity.
Qed.

Lemma reconstruct_data_buffer0 (buf0 : list byte) (rest : list (list byte)) log0 p0 :
  run (buffer0_payload buf0) = (log0, Ret p0) ->
  run (reconstruct_data (buf0 :: rest))
  = (log0, Ret (p0 ++ concat (map (skipn 3) rest))).
Proof.
  unfold run, reconstruct_data. intros H. cbn [reconstruct_loop Nat.eqb].
  unfold bind at 1. rewrite H. apply reconstruct_loop_tail.
Qed.

Lemma reconstruct_data_cons (buf0 : list byte) (rest : list (list byte)) :
  (5 <= length buf0)%nat ->
  run (reconstruct_data (buf0 :: rest))
  = (fst (buffer0_result buf0),
     Ret (snd (buffer0_result buf0) ++ concat (map (skipn 3) rest))).
Proof.
  intros H. apply reconstruct_data_buffer0.
  unfold run. rewrite buffer0_payload_spec by exact H. reflexivity.
Qed.

(** ** Claims about reassembly *)

(** C1: for the report at position 0 the header is classified by bytes 3
    and 4: [01 f8] gives a 5-byte header, [f8] at byte 3 a 4-byte header,
    anything else prints a diagnostic with the first five bytes and falls
    back to a 3-byte header. *)
Theorem reconstruct_buffer0_header (buf0 : list byte) (rest : list (list byte))
    (Hlen : (5 <= length buf0)%nat) :
  let tail := concat (map (skipn 3) rest) in
  run (reconstruct_data (buf0 :: rest))
  = if Byte.eqb (nth 3 buf0 x00) x01 && Byte.eqb (nth 4 buf0 x00) xf8
    then ([], Ret (skipn 5 buf0 ++ tail))
    else if Byte.eqb (nth 3 buf0 x00) xf8
    then ([], Ret (skipn 4 buf0 ++ tail))
    else ([UnknownBuffer0Format (firstn 5 buf0)], Ret (skipn 3 buf0 ++ tail)).
Proof.
  cbv zeta. rewrite reconstruct_data_cons by exact Hlen.
  unfold buffer0_result.
  destruct (Byte.eqb (nth 3 buf0 x00) x01 && Byte.eqb (nth 4 buf0 x00) xf8);
    [|destruct (Byte.eqb (nth 3 buf0 x00) xf8)]; reflexivity.
Qed.

(** C2: whatever the first report contributes, every later report
    contributes its bytes from index 3 on, and the blob is the
    concatenation of the payloads in position order. *)
Theorem reconstruct_concat_payloads (buf0 : list byte) (rest : list (list byte))
    (log0 : list diag) (p0 : list byte)
    (H0 : run (buffer0_payload buf0) = (log0, Ret p0)) :
  run (reconstruct_data (buf0 :: rest))
  = (log0, Ret (concat (p0 :: map (fun buf => skipn 3 buf) rest))).
Proof. simpl concat. apply reconstruct_data_buffer0. exact H0. Qed.

Lemma buffer0_result_length (buf0 : list byte) :
  length (snd (buffer0_result buf0)) = (length buf0 - header_len 0 buf0)%nat.
Proof.
  unfold buffer0_result, header_len. cbn [Nat.eqb].
  destruct (Byte.eqb (nth 3 buf0 x00) x01 && Byte.eqb (nth 4 buf0 x00) xf8);
    [|destruct (Byte.eqb (nth 3 buf0 x00) xf8)]; apply length_skipn.
Qed.

Lemma concat_skipn3_length (rest : list (list byte)) :
  length (concat (map (skipn 3) rest))
  = list_sum (map (fun buf => length buf - 3)%nat rest).
Proof.
  induction rest as [|buf rest IH]; [reflexivity|].
  cbn [map concat list_sum]. rewrite length_app, length_skipn, IH. reflexivity.
Qed.

Lemma list_sum_cons' (x : nat) (l : list nat) :
  list_sum (x :: l) = (x + list_sum l)%nat.
Proof. reflexivity. Qed.

Lemma header_len_pos (i : nat) (buf : list byte) :
  (0 < i)%nat -> header_len i buf = 3%nat.
Proof. intros Hi. unfold header_len. destruct i; [lia|reflexivity]. Qed.

Lemma sum_tail_headers (n : nat) (rest : list (list byte)) :
  Forall (fun b => length b = 65%nat) rest ->
  list_sum (map (fun '(i, b) => 65 - header_len i b)%nat
                (combine (seq (S n) (length rest)) rest))
  = list_sum (map (fun buf => length buf - 3)%nat rest).
Proof.
  revert n. induction rest as [|buf rest IH]; intros n Hall; [reflexivity|].
  inversion Hall as [|? ? Hb Hrest]; subst.
  cbn [length seq combine map]. rewrite !list_sum_cons'.
  rewrite header_len_pos by lia. rewrite Hb, IH by exact Hrest. reflexivity.
Qed.

(** C3: for nine 65-byte reports the blob length is the sum over the
    reports of 65 minus the report's header length. *)
Theorem reconstruct_length_sum (bufs : list (list byte))
    (H9 : length bufs = 9%nat)
    (H65 : Forall (fun b => length b = 65%nat) bufs) :
  exists log blob,
    run (reconstruct_data bufs) = (log, Ret blob) /\
    length blob
    = list_sum (map (fun '(i, b) => 65 - header_len i b)%nat
                    (combine (seq 0 9) bufs)).
Proof.
  destruct bufs as [|buf0 rest]; [discriminate|].
  inversion H65 as [|? ? Hb0 Hrest]; subst.
  injection H9 as H8.
  rewrite reconstruct_data_cons by lia.
  eexists _, _. split; [reflexivity|].
  rewrite length_app, buffer0_result_length, concat_skipn3_length.
  change (seq 0 9) with (0%nat :: seq 1 8).
  replace (seq 1 8) with (seq 1 (length rest)) by (rewrite H8; reflexivity).
  change (combine (0%nat :: seq 1 (length rest)) (buf0 :: rest))
    with ((0%nat, buf0) :: combine (seq 1 (length rest)) rest).
  rewrite map_cons, list_sum_cons', Hb0, (sum_tail_headers 0 rest Hrest).
  reflexivity.
Qed.

(** ** Reading a firmware code *)

Lemma bval_range (b : byte) : 0 <= bval b < 256.
Proof.
  unfold bval. pose proof (Byte.to_N_bounded b). lia.
Qed.

(** OR-ing a value shifted above bit [k] with one below [2^k] adds them. *)
Lemma lor_high_low (c a k : Z) :
  0 <= k -> 0 <= a < 2 ^ k -> Z.lor (c * 2 ^ k) a = c * 2 ^ k + a.
Proof.
  intros Hk Ha.
  assert (Hand : Z.land (c * 2 ^ k) a = 0).
  { apply Z.bits_inj'. intros m Hm. rewrite Z.land_spec, Z.bits_0.
    destruct (Z.lt_ge_cases m k) as [Hlt | Hge].
    - rewrite <- Z.shiftl_mul_pow2 by exact Hk.
      rewrite Z.shiftl_spec_low by exact Hlt. reflexivity.
    - replace (Z.testbit a m) with (Z.testbit (a mod 2 ^ k) m)
        by (rewrite Z.mod_small by exact Ha; reflexivity).
      rewrite Z.mod_pow2_bits_high by lia. apply andb_false_r. }
  rewrite <- Z.lxor_lor by exact Hand.
  rewrite <- Z.add_nocarry_lxor by exact Hand. reflexivity.
Qed.

(** The shift-and-or expression of [get_firmware_code] is the big-endian
    composition. *)
Lemma shift_or_be32 (b0 b1 b2 b3 : byte) :
  Z.lor (Z.lor (Z.lor (Z.shiftl (bval b0) 24) (Z.shiftl (bval b1) 16))
               (Z.shiftl (bval b2) 8))
        (bval b3)
  = be32 b0 b1 b2 b3.
Proof.
  pose proof (bval_range b0). pose proof (bval_range b1).
  pose proof (bval_range b2). pose proof (bval_range b3).
  unfold be32. rewrite !Z.shiftl_mul_pow2 by lia.
  rewrite (lor_high_low (bval b0) (bval b1 * 2 ^ 16) 24) by (simpl; lia).
  replace (bval b0 * 2 ^ 24 + bval b1 * 2 ^ 16)
    with ((bval b0 * 2 ^ 8 + bval b1) * 2 ^ 16) by ring.
  rewrite (lor_high_low _ (bval b2 * 2 ^ 8) 16) by (simpl; lia).
  replace ((bval b0 * 2 ^ 8 + bval b1) * 2 ^ 16 + bval b2 * 2 ^ 8)
    with ((bval b0 * 2 ^ 16 + bval b1 * 2 ^ 8 + bval b2) * 2 ^ 8) by ring.
  rewrite (lor_high_low _ (bval b3) 8) by (simpl; lia).
  ring.
Qed.

Lemma be32_range (b0 b1 b2 b3 : byte) : 0 <= be32 b0 b1 b2 b3 < 2 ^ 32.
Proof.
  pose proof (bval_range b0). pose proof (bval_range b1).
  pose proof (bval_range b2). pose proof (bval_range b3).
  unfold be32. simpl. lia.
Qed.

(** A slice inside the list is [firstn] of [skipn]. *)
Lemma py_slice_inside {A} (l : list A) (s e : Z) :
  0 <= s <= e -> e <= Z.of_nat (length l) ->
  py_slice l s e = firstn (Z.to_nat (e - s)) (skipn (Z.to_nat s) l).
Proof.
  intros Hs He. unfold py_slice, py_slice_bound.
  replace (s <? 0) with false by (symmetry; apply Z.ltb_ge; lia).
  replace (e <? 0) with false by (symmetry; apply Z.ltb_ge; lia).
  rewrite (Z.min_l s), (Z.min_l e) by lia. reflexivity.
Qed.

(** [get_firmware_code] at a non-negative index. *)
Lemma get_firmware_code_spec (data : list byte) (idx : Z) :
  0 <= idx ->
  run (get_firmware_code data idx)
  = if Z.of_nat (length data) <? idx * 4 + 4 then ([], Ret None)
    else let o := Z.to_nat (idx * 4) in
         ([], Ret (Some (be32 (nth o data x00) (nth (o + 1) data x00)
                              (nth (o + 2) data x00) (nth (o + 3) data x00)))).
Proof.
  intros Hidx. unfold run, get_firmware_code.
  destruct (Z.of_nat (length data) <? idx * 4 + 4) eqn:E; [reflexivity|].
  apply Z.ltb_ge in E.
  rewrite py_slice_inside by lia.
  replace (idx * 4 + 4 - idx * 4) with 4 by ring.
  set (w := firstn (Z.to_nat 4) (skipn (Z.to_nat (idx * 4)) data)).
  assert (Hw : length w = 4%nat).
  { unfold w. rewrite length_firstn, length_skipn.
    change (Z.to_nat 4) with 4%nat. lia. }
  rewrite (py_index_Z w 0 x00), (py_index_Z w 1 x00), (py_index_Z w 2 x00),
    (py_index_Z w 3 x00) by (rewrite ?Hw; cbn; lia).
  unfold bind, ret. rewrite shift_or_be32.
  unfold w. rewrite !nth_firstn, !nth_skipn. simpl.
  rewrite Nat.add_0_r. reflexivity.
Qed.

(** ** Claims about [get_firmware_code] *)

(** C4: at a non-negative slot index the function returns without raising;
    it returns [None] exactly when [(index+1)*4 > len(data)] and otherwise an
    unsigned 32-bit value read from the 4 bytes at offset [index*4]; in
    particular the last full slot [len/4 - 1] is available. *)
Theorem get_firmware_code_range (data : list byte) (idx : Z) (Hidx : 0 <= idx) :
  (exists r,
     run (get_firmware_code data idx) = ([], Ret r) /\
     (r = None <-> Z.of_nat (length data) < (idx + 1) * 4) /\
     (forall v, r = Some v ->
        0 <= v < 2 ^ 32 /\
        v = be32 (nth (Z.to_nat (idx * 4)) data x00)
                 (nth (Z.to_nat (idx * 4) + 1) data x00)
                 (nth (Z.to_nat (idx * 4) + 2) data x00)
                 (nth (Z.to_nat (idx * 4) + 3) data x00))) /\
  ((4 <= length data)%nat ->
   exists v, run (get_firmware_code data (Z.of_nat (length data) / 4 - 1))
             = ([], Ret (Some v))).
Proof.
  split.
  - rewrite get_firmware_code_spec by exact Hidx.
    destruct (Z.of_nat (length data) <? idx * 4 + 4) eqn:E.
    + apply Z.ltb_lt in E. eexists. split; [reflexivity|]. split.
      * split; intros; [lia | reflexivity].
      * intros v Hv. discriminate Hv.
    + apply Z.ltb_ge in E. eexists. split; [reflexivity|]. split.
      * split; intros H; [discriminate H | lia].
      * intros v Hv. injection Hv as <-. split; [apply be32_range | reflexivity].
  - intros H4. rewrite get_firmware_code_spec.
    + replace (Z.of_nat (length data) <? (Z.of_nat (length data) / 4 - 1) * 4 + 4)
        with false by (symmetry; apply Z.ltb_ge; Z.div_mod_to_equations; lia).
      eexists. reflexivity.
    + Z.div_mod_to_equations. lia.
Qed.

(** C10: the out-of-range guard covers non-negative indices only: there
    the function never raises and yields [None] or a 32-bit value, while at
    index [-1] the guard [offset + 4 > len(data)] does not fire, the slice
    [data[-4:0]] is empty and [b[0]] raises [IndexError], for every [data]. *)
Theorem get_firmware_code_negative_index (data : list byte) :
  (forall idx, 0 <= idx ->
     exists r, run (get_firmware_code data idx) = ([], Ret r) /\
               forall v, r = Some v -> 0 <= v < 2 ^ 32) /\
  run (get_firmware_code data (-1)) = ([], Raise IndexError).
Proof.
  split.
  - intros idx Hidx. rewrite get_firmware_code_spec by exact Hidx.
    destruct (Z.of_nat (length data) <? idx * 4 + 4).
    + eexists. split; [reflexivity|]. intros v Hv. discriminate Hv.
    + eexists. split; [reflexivity|]. intros v Hv. injection Hv as <-.
      apply be32_range.
  - unfold run, get_firmware_code.
    replace (Z.of_nat (length data) <? -1 * 4 + 4) with false
      by (symmetry; apply Z.ltb_ge; lia).
    unfold py_slice, py_slice_bound.
    replace (-1 * 4 <? 0) with true by reflexivity.
    replace (-1 * 4 + 4 <? 0) with false by reflexivity.
    replace (Z.to_nat (Z.min (-1 * 4 + 4) (Z.of_nat (length data))
                       - Z.max 0 (-1 * 4 + Z.of_nat (length data))))
      with 0%nat by lia.
    reflexivity.
Qed.

(** C5 (as the code has it): there is no byte-order parameter; the 4 bytes
    at the slot's offset are always composed big-endian, byte 0 the most
    significant octet. *)
Theorem get_firmware_code_big_endian (data : list byte) (idx : Z)
    (Hidx : 0 <= idx) (Hin : (idx + 1) * 4 <= Z.of_nat (length data)) :
  let o := Z.to_nat (idx * 4) in
  run (get_firmware_code data idx)
  = ([], Ret (Some (be32 (nth o data x00) (nth (o + 1) data x00)
                         (nth (o + 2) data x00) (nth (o + 3) data x00)))).
Proof.
  cbv zeta. rewrite get_firmware_code_spec by exact Hidx.
  replace (Z.of_nat (length data) <? idx * 4 + 4) with false
    by (symmetry; apply Z.ltb_ge; lia).
  reflexivity.
Qed.

(** C5: with the only call the code offers, [01 00 00 00] reads as
    [0x01000000], not as the little-endian value [1]. *)
Lemma get_firmware_code_not_little_endian :
  run (get_firmware_code [x01; x00; x00; x00] 0) = ([], Ret (Some 16777216)) /\
  16777216 <> le32 x01 x00 x00 x00.
Proof. split; [reflexivity | discriminate]. Qed.

(** ** The end-to-end scenario *)

Lemma concat_skipn3_length_const (rest : list (list byte)) (m : nat) :
  Forall (fun b => length b = (3 + m)%nat) rest ->
  length (concat (map (skipn 3) rest)) = (length rest * m)%nat.
Proof.
  intros Hall. induction Hall as [|b rest Hb _ IH]; [reflexivity|].
  cbn [map concat length]. rewrite length_app, length_skipn, IH, Hb. lia.
Qed.

Lemma scenario_blob (f0 : list byte) (fs : list (byte * list byte)) :
  (1 <= length f0)%nat ->
  run (reconstruct_data (scenario_buffers f0 fs))
  = ([], Ret (f0 ++ concat (map (skipn 3)
                                (map (fun '(p, f) => [x0a; x09; p] ++ f) fs)))).
Proof.
  intros H. unfold scenario_buffers. rewrite reconstruct_data_cons.
  - reflexivity.
  - rewrite length_app. simpl. lia.
Qed.

(** C6 (as the code has it): with 65-byte reports, buffer 0 carries 61
    filler bytes and buffers 1..8 carry 62, so the blob has
    61 + 8*62 = 557 bytes; slot 0 read big-endian is the first four filler
    bytes most significant first, and slot 200 (offset 800) is [None]. *)
Theorem scenario_end_to_end (f0 : list byte) (fs : list (byte * list byte))
    (H0 : length f0 = 61%nat) (H8 : length fs = 8%nat)
    (Hf : Forall (fun '(_, f) => length f = 62%nat) fs) :
  exists blob,
    run (reconstruct_data (scenario_buffers f0 fs)) = ([], Ret blob) /\
    length blob = 557%nat /\
    length blob = (61 + 8 * 62)%nat /\
    run (get_firmware_code blob 0)
    = ([], Ret (Some (be32 (nth 0 f0 x00) (nth 1 f0 x00)
                           (nth 2 f0 x00) (nth 3 f0 x00)))) /\
    run (get_firmware_code blob 200) = ([], Ret None).
Proof.
  rewrite scenario_blob by lia.
  set (tail := concat (map (skipn 3) (map (fun '(p, f) => [x0a; x09; p] ++ f) fs))).
  assert (Htail : length tail = (8 * 62)%nat).
  { unfold tail. rewrite concat_skipn3_length_const with (m := 62%nat).
    - rewrite length_map, H8. reflexivity.
    - apply Forall_map. eapply Forall_impl; [|exact Hf].
      intros [p f] Hpf. rewrite length_app, Hpf. reflexivity. }
  assert (Hlen : length (f0 ++ tail) = 557%nat) by (rewrite length_app; lia).
  exists (f0 ++ tail). split; [reflexivity|]. split; [exact Hlen|].
  split; [exact Hlen|]. split.
  - rewrite get_firmware_code_spec by lia. rewrite Hlen.
    change (Z.of_nat 557 <? 0 * 4 + 4) with false. cbv zeta.
    change (Z.to_nat (0 * 4)) with 0%nat. cbn [Nat.add].
    rewrite !app_nth1 by lia. reflexivity.
  - rewrite get_firmware_code_spec by lia. rewrite Hlen. reflexivity.
Qed.

(** C6: the length the spec states, [60 + 8*62 = 556], is not the one the
    code produces for 65-byte reports: with zero filler the blob has 557
    bytes. *)
Lemma scenario_length_not_556 :
  match snd (run (reconstruct_data scenario_zero)) with
  | Ret blob => length blob = 557%nat /\ length blob <> (60 + 8 * 62)%nat
  | Raise _ => False
  end.
Proof. vm_compute. split; [reflexivity | discriminate]. Qed.

(** ** Swapping two reports *)

Lemma list_split2 {A} (l : list A) (i j : nat) :
  (i < j)%nat -> (j < length l)%nat ->
  exists r1 x r2 y r3,
    l = r1 ++ x :: r2 ++ y :: r3 /\ length r1 = i /\ length r2 = (j - i - 1)%nat.
Proof.
  intros Hij Hj.
  destruct (nth_error l i) as [x|] eqn:Ex;
    [|apply nth_error_None in Ex; lia].
  destruct (nth_error_split l i Ex) as (r1 & l2 & -> & Hr1).
  assert (Ey : nth_error l2 (j - i - 1) <> None).
  { apply nth_error_Some. rewrite length_app in Hj. simpl in Hj. lia. }
  destruct (nth_error l2 (j - i - 1)) as [y|] eqn:Ey'; [|contradiction].
  destruct (nth_error_split l2 (j - i - 1) Ey') as (r2 & r3 & -> & Hr2).
  exists r1, x, r2, y, r3. auto.
Qed.

Lemma replace_at_app {A} (r1 r : list A) (k : nat) (z : A) :
  replace_at (length r1 + k) z (r1 ++ r) = r1 ++ replace_at k z r.
Proof. induction r1 as [|a r1 IH]; [reflexivity|]. simpl. rewrite IH. reflexivity. Qed.

Lemma swap_at_cons {A} (a : A) (l : list A) (i j : nat) :
  swap_at (S i) (S j) (a :: l) = a :: swap_at i j l.
Proof.
  unfold swap_at. simpl.
  destruct (nth_error l i), (nth_error l j); reflexivity.
Qed.

Lemma swap_at_split {A} (r1 r2 r3 : list A) (x y : A) :
  swap_at (length r1) (length r1 + S (length r2)) (r1 ++ x :: r2 ++ y :: r3)
  = r1 ++ y :: r2 ++ x :: r3.
Proof.
  unfold swap_at.
  rewrite nth_error_app2, Nat.sub_diag by lia. cbn [nth_error].
  rewrite nth_error_app2 by lia.
  replace (length r1 + S (length r2) - length r1)%nat with (S (length r2)) by lia.
  cbn [nth_error]. rewrite nth_error_app2, Nat.sub_diag by lia. cbn [nth_error].
  pose proof (replace_at_app r1 (x :: r2 ++ y :: r3) 0 y) as E1.
  rewrite Nat.add_0_r in E1. rewrite E1. clear E1.
  rewrite replace_at_app. cbn [replace_at].
  pose proof (replace_at_app r2 (y :: r3) 0 x) as E2.
  rewrite Nat.add_0_r in E2. rewrite E2. reflexivity.
Qed.

(** Only the two swapped windows of a concatenation change. *)
Lemma nth_error_swap_frame {T} (A B C X Y : list T) (k : nat) :
  length X = length Y ->
  ~ (length A <= k < length A + length X)%nat ->
  ~ (length A + length X + length B <= k
     < length A + length X + length B + length Y)%nat ->
  nth_error (A ++ X ++ B ++ Y ++ C) k = nth_error (A ++ Y ++ B ++ X ++ C) k.
Proof.
  intros HXY H1 H2.
  destruct (Nat.lt_ge_cases k (length A)) as [Ha|Ha].
  { rewrite !nth_error_app1 by lia. reflexivity. }
  rewrite !(nth_error_app2 A) by lia.
  rewrite (nth_error_app2 X), (nth_error_app2 Y) by lia.
  rewrite HXY.
  destruct (Nat.lt_ge_cases (k - length A - length Y) (length B)) as [Hb|Hb].
  { rewrite !nth_error_app1 by lia. reflexivity. }
  rewrite !(nth_error_app2 B) by lia.
  rewrite (nth_error_app2 X), (nth_error_app2 Y) by lia.
  rewrite HXY. reflexivity.
Qed.

Lemma sum_tail_const (n m : nat) (rest : list (list byte)) :
  Forall (fun b => length b = 65%nat) rest ->
  list_sum (map (fun '(i, b) => length b - header_len i b)%nat
                (combine (seq (S n) m) rest))
  = (62 * Nat.min m (length rest))%nat.
Proof.
  revert n m. induction rest as [|buf rest IH]; intros n m Hall.
  - destruct m; reflexivity.
  - inversion Hall as [|? ? Hb Hrest]; subst. destruct m as [|m]; [reflexivity|].
    cbn [length seq combine map]. rewrite list_sum_cons'.
    rewrite header_len_pos by lia. rewrite Hb, IH by exact Hrest.
    cbn [Nat.min]. lia.
Qed.

Lemma payload_start_65 (buf0 : list byte) (rest : list (list byte)) (p : nat) :
  Forall (fun b => length b = 65%nat) rest ->
  (p <= length rest)%nat ->
  payload_start (buf0 :: rest) (S p)
  = (length buf0 - header_len 0 buf0 + 62 * p)%nat.
Proof.
  intros Hall Hp. unfold payload_start.
  change (seq 0 (S p)) with (0%nat :: seq 1 p).
  change (combine (0%nat :: seq 1 p) (buf0 :: rest))
    with ((0%nat, buf0) :: combine (seq 1 p) rest).
  rewrite map_cons, list_sum_cons', (sum_tail_const 0 p rest Hall).
  rewrite Nat.min_l by exact Hp. reflexivity.
Qed.

(** C8: swapping the 65-byte reports at two positions [1 <= i < j <= 8] of
    nine reports leaves the diagnostics and the blob length unchanged, and
    every byte of the blob outside the payload windows of positions [i]
    and [j] unchanged. *)
Theorem reconstruct_swap_frame (bufs : list (list byte)) (i j : nat)
    (H9 : length bufs = 9%nat)
    (H65 : Forall (fun b => length b = 65%nat) bufs)
    (Hi : (1 <= i)%nat) (Hij : (i < j)%nat) (Hj : (j <= 8)%nat) :
  exists log out out',
    run (reconstruct_data bufs) = (log, Ret out) /\
    run (reconstruct_data (swap_at i j bufs)) = (log, Ret out') /\
    length out = length out' /\
    forall k,
      ~ (payload_start bufs i <= k < payload_start bufs (S i))%nat ->
      ~ (payload_start bufs j <= k < payload_start bufs (S j))%nat ->
      nth_error out k = nth_error out' k.
Proof.
  destruct bufs as [|buf0 rest]; [discriminate|].
  inversion H65 as [|? ? Hb0 Hrest]; subst. injection H9 as H8.
  destruct i as [|i']; [lia|]. destruct j as [|j']; [lia|].
  destruct (list_split2 rest i' j') as (r1 & x & r2 & y & r3 & Hsplit & Hr1 & Hr2);
    [lia | lia |].
  assert (Hj' : j' = (length r1 + S (length r2))%nat) by lia.
  rewrite swap_at_cons, Hj', <- Hr1, Hsplit, swap_at_split.
  rewrite !payload_start_65 by (try rewrite <- Hsplit; lia || exact Hrest).
  rewrite Hsplit in Hrest.
  apply Forall_app in Hrest as [Hall1 Hrest1]. inversion Hrest1 as [|? ? Hx Hrest2]; subst.
  apply Forall_app in Hrest2 as [Hall2 Hrest3]. inversion Hrest3 as [|? ? Hy Hall3]; subst.
  rewrite !reconstruct_data_cons by lia.
  rewrite !map_app, !concat_app. cbn [map concat].
  rewrite !map_app, !concat_app. cbn [map concat].
  rewrite !(app_assoc (snd (buffer0_result buf0))).
  set (A := snd (buffer0_result buf0) ++ concat (map (skipn 3) r1)).
  set (B := concat (map (skipn 3) r2)).
  set (C := concat (map (skipn 3) r3)).
  assert (HA : length A = (65 - header_len 0 buf0 + 62 * length r1)%nat).
  { unfold A. rewrite length_app, buffer0_result_length, Hb0.
    rewrite (concat_skipn3_length_const r1 62) by exact Hall1. lia. }
  assert (HB : length B = (62 * length r2)%nat).
  { unfold B. rewrite (concat_skipn3_length_const r2 62) by exact Hall2. lia. }
  assert (HX : length (skipn 3 x) = 62%nat) by (rewrite length_skipn; lia).
  assert (HY : length (skipn 3 y) = 62%nat) by (rewrite length_skipn; lia).
  do 3 eexists. split; [reflexivity|]. split; [reflexivity|]. split.
  - rewrite !length_app. lia.
  - intros k Hk1 Hk2. rewrite Hb0 in Hk1, Hk2.
    apply nth_error_swap_frame; [lia | lia | lia].
Qed.

(** ** Capture parsing *)

Lemma hex_val_not_space (c : ascii) (v : N) :
  hex_val c = Some v -> hex_space c = false.
Proof.
  intros H. destruct c as [[] [] [] [] [] [] [] []];
    try reflexivity; discriminate H.
Qed.

(** [bytes.fromhex] prints nothing and, when it succeeds, yields one byte
    per two hex digits. *)
Lemma fromhex_l_spec (n : nat) :
  forall (cs : list ascii) log, (length cs <= n)%nat ->
  fromhex_l cs log = (log, snd (fromhex_l cs [])) /\
  (forall b, snd (fromhex_l cs []) = Ret b ->
     (2 * length b)%nat = length (filter (fun c => negb (hex_space c)) cs)).
Proof.
  induction n as [|n IH]; intros cs log Hlen.
  - destruct cs; [|simpl in Hlen; lia].
    split; [reflexivity|]. intros b Hb. injection Hb as <-. reflexivity.
  - destruct cs as [|c t].
    { split; [reflexivity|]. intros b Hb. injection Hb as <-. reflexivity. }
    simpl in Hlen. cbn [fromhex_l filter].
    destruct (hex_space c) eqn:Hs; cbn [negb].
    { apply IH. lia. }
    destruct t as [|c' t']; [split; [reflexivity | discriminate]|].
    destruct (hex_val c) as [hi|] eqn:Hhi; [|split; [reflexivity | discriminate]].
    destruct (hex_val c') as [lo|] eqn:Hlo; [|split; [reflexivity | discriminate]].
    destruct (Byte.of_N (hi * 16 + lo)) as [byt|]; [|split; [reflexivity | discriminate]].
    cbn [filter]. rewrite (hex_val_not_space c' lo Hlo). cbn [negb length].
    simpl in Hlen. destruct (IH t' log ltac:(lia)) as [Elog Elen].
    destruct (IH t' [] ltac:(lia)) as [Enil _].
    unfold bind. rewrite Elog, Enil.
    destruct (snd (fromhex_l t' [])) as [rest|e] eqn:Er.
    + split; [reflexivity|]. intros b Hb. cbn in Hb. injection Hb as <-.
      cbn [length]. specialize (Elen rest eq_refl). lia.
    + split; [reflexivity | discriminate].
Qed.

Lemma fromhex_spec (s : string) log :
  fromhex s log = (log, snd (fromhex s [])) /\
  (forall b, snd (fromhex s []) = Ret b -> (2 * length b)%nat = hex_digit_count s).
Proof. exact (fromhex_l_spec _ (list_ascii_of_string s) log (le_n _)). Qed.

Lemma py_map_fromhex (lines : list string) log :
  py_map fromhex lines log = (log, snd (py_map fromhex lines [])) /\
  (forall bs, snd (py_map fromhex lines []) = Ret bs ->
     Forall2 (fun line buf => run (fromhex line) = ([], Ret buf)) lines bs).
Proof.
  revert log. induction lines as [|line lines IH]; intros log.
  - split; [reflexivity|]. intros bs Hbs. injection Hbs as <-. constructor.
  - cbn [py_map]. unfold bind.
    destruct (fromhex_spec line log) as [E1 _].
    destruct (fromhex_spec line []) as [E2 _].
    rewrite E1, E2.
    destruct (snd (fromhex line [])) as [b|e] eqn:Eb.
    + destruct (IH log) as [F1 _]. destruct (IH []) as [F2 F3].
      rewrite F1, F2.
      destruct (snd (py_map fromhex lines [])) as [bs|e]; cbn.
      * split; [reflexivity|]. intros bs' Hbs. injection Hbs as <-.
        constructor; [|apply F3; reflexivity].
        unfold run. rewrite E2. reflexivity.
      * split; [reflexivity | discriminate].
    + split; [reflexivity | discriminate].
Qed.

Lemma parse_buffers_outcome (file_lines : list string) :
  snd (run (parse_buffers file_lines))
  = snd (py_map fromhex (firstn 9 (selected_lines file_lines)) []).
Proof.
  unfold run, parse_buffers. fold (selected_lines file_lines).
  unfold bind, print, ret.
  destruct (negb (Nat.eqb (length (selected_lines file_lines)) 9));
    rewrite (proj1 (py_map_fromhex _ _)); reflexivity.
Qed.

Lemma parse_buffers_log (file_lines : list string) :
  fst (run (parse_buffers file_lines))
  = if Nat.eqb (length (selected_lines file_lines)) 9 then []
    else [WarnBufferCount (length (selected_lines file_lines))].
Proof.
  unfold run, parse_buffers. fold (selected_lines file_lines).
  unfold bind, print, ret.
  destruct (Nat.eqb (length (selected_lines file_lines)) 9); cbn [negb];
    rewrite (proj1 (py_map_fromhex _ _)); reflexivity.
Qed.

Lemma py_map_fromhex_ok (lines : list string) :
  (forall line, In line lines -> exists buf, run (fromhex line) = ([], Ret buf)) ->
  exists bs, snd (py_map fromhex lines []) = Ret bs.
Proof.
  induction lines as [|line lines IH]; intros H; [exists []; reflexivity|].
  cbn [py_map]. unfold bind.
  destruct (H line (or_introl eq_refl)) as [b Hb]. unfold run in Hb. rewrite Hb.
  destruct (IH (fun l Hl => H l (or_intror Hl))) as [bs Hbs].
  destruct (py_map_fromhex lines []) as [F1 _]. rewrite F1, Hbs.
  exists (b :: bs). reflexivity.
Qed.

(** C9 (as the code has it): the selected lines are the stripped,
    blank-free, non-empty lines starting with [0a09]. The warning is
    printed exactly when their count is not 9, and it is not fatal: the
    first [min 9 count] selected lines are decoded with [bytes.fromhex]
    whatever the count, and parsing returns as soon as each of them is
    valid hex. Nothing checks their length: each decoded report has one
    byte per two hex digits of its line, so 65 bytes exactly for a line of
    130 hex digits. *)
Theorem parse_buffers_first_nine (file_lines : list string) :
  let sel := selected_lines file_lines in
  fst (run (parse_buffers file_lines))
  = (if Nat.eqb (length sel) 9 then [] else [WarnBufferCount (length sel)]) /\
  ((forall line, In line (firstn 9 sel) ->
      exists buf, run (fromhex line) = ([], Ret buf)) ->
   exists bufs, snd (run (parse_buffers file_lines)) = Ret bufs) /\
  (forall bufs, snd (run (parse_buffers file_lines)) = Ret bufs ->
     length bufs = Nat.min 9 (length sel) /\
     Forall2 (fun line buf => run (fromhex line) = ([], Ret buf) /\
                              (2 * length buf)%nat = hex_digit_count line)
             (firstn 9 sel) bufs).
Proof.
  cbv zeta. split; [apply parse_buffers_log|].
  rewrite parse_buffers_outcome. split; [apply py_map_fromhex_ok|].
  intros bufs Hok.
  destruct (py_map_fromhex (firstn 9 (selected_lines file_lines)) []) as [_ F].
  pose proof (F bufs Hok) as HF.
  split.
  - rewrite <- (Forall2_length HF), length_firstn. reflexivity.
  - eapply Forall2_impl; [|exact HF].
    intros line buf Hl. split; [exact Hl|].
    unfold run in Hl. destruct (fromhex_spec line []) as [_ Hlen].
    apply Hlen. rewrite Hl. reflexivity.
Qed.

(** C9: a selected line is not required to hold 130 hex digits: the line
    [0a0901] is decoded as a 3-byte report. *)
Lemma parse_buffers_short_report :
  run (parse_buffers ["0a0901"%string]) = ([WarnBufferCount 1], Ret [[x0a; x09; x01]]).
Proof. reflexivity. Qed.

(** ** Catalog parsing *)

(** C7: a line of the [KEY] section with 8 fields whose bIndex field is not
    an integer makes [int()] raise [ValueError], which [parse_kb_ini] does
    not catch. *)
Lemma parse_kb_ini_bad_bindex_raises :
  run (parse_kb_ini ["[KEY]"; "K1=0,0,10,10,0,0x41,0,abc"]%string)
  = ([], Raise ValueError).
Proof. reflexivity. Qed.

(** ** The claims' theorems at concrete inputs *)

Lemma reconstruct_buffer0_header_witness :
  (5 <= length [x0a; x09; x01; x01; xf8; x07])%nat /\
  let tail := concat (map (skipn 3) [[x0a; x09; x02; x08]]) in
  run (reconstruct_data ([x0a; x09; x01; x01; xf8; x07] :: [[x0a; x09; x02; x08]]))
  = if Byte.eqb (nth 3 [x0a; x09; x01; x01; xf8; x07] x00) x01
       && Byte.eqb (nth 4 [x0a; x09; x01; x01; xf8; x07] x00) xf8
    then ([], Ret (skipn 5 [x0a; x09; x01; x01; xf8; x07] ++ tail))
    else if Byte.eqb (nth 3 [x0a; x09; x01; x01; xf8; x07] x00) xf8
    then ([], Ret (skipn 4 [x0a; x09; x01; x01; xf8; x07] ++ tail))
    else ([UnknownBuffer0Format (firstn 5 [x0a; x09; x01; x01; xf8; x07])],
          Ret (skipn 3 [x0a; x09; x01; x01; xf8; x07] ++ tail)).
Proof.
  split; [simpl; lia|].
  apply reconstruct_buffer0_header. simpl. lia.
Defined.

Lemma reconstruct_concat_payloads_witness :
  run (buffer0_payload [x0a; x09; x01; xf8; x07]) = ([], Ret [x07]) /\
  run (reconstruct_data ([x0a; x09; x01; xf8; x07] :: [[x0a; x09; x02; x08]]))
  = ([], Ret (concat ([x07] :: map (fun buf => skipn 3 buf) [[x0a; x09; x02; x08]]))).
Proof.
  split; [reflexivity|].
  apply reconstruct_concat_payloads. reflexivity.
Defined.

Lemma reconstruct_length_sum_witness :
  length scenario_zero = 9%nat /\
  Forall (fun b => length b = 65%nat) scenario_zero /\
  exists log blob,
    run (reconstruct_data scenario_zero) = (log, Ret blob) /\
    length blob
    = list_sum (map (fun '(i, b) => 65 - header_len i b)%nat
                    (combine (seq 0 9) scenario_zero)).
Proof.
  assert (H65 : Forall (fun b => length b = 65%nat) scenario_zero)
    by (vm_compute; repeat constructor).
  split; [reflexivity|]. split; [exact H65|].
  apply reconstruct_length_sum; [reflexivity | exact H65].
Defined.

Lemma get_firmware_code_range_witness :
  0 <= 1 /\
  (exists r,
     run (get_firmware_code [x01; x02; x03; x04; x05] 1) = ([], Ret r) /\
     (r = None <-> Z.of_nat (length [x01; x02; x03; x04; x05]) < (1 + 1) * 4) /\
     (forall v, r = Some v ->
        0 <= v < 2 ^ 32 /\
        v = be32 (nth (Z.to_nat (1 * 4)) [x01; x02; x03; x04; x05] x00)
                 (nth (Z.to_nat (1 * 4) + 1) [x01; x02; x03; x04; x05] x00)
                 (nth (Z.to_nat (1 * 4) + 2) [x01; x02; x03; x04; x05] x00)
                 (nth (Z.to_nat (1 * 4) + 3) [x01; x02; x03; x04; x05] x00))) /\
  ((4 <= length [x01; x02; x03; x04; x05])%nat ->
   exists v, run (get_firmware_code [x01; x02; x03; x04; x05]
                    (Z.of_nat (length [x01; x02; x03; x04; x05]) / 4 - 1))
             = ([], Ret (Some v))).
Proof.
  split; [lia|]. apply get_firmware_code_range. lia.
Defined.

Lemma get_firmware_code_negative_index_witness :
  (forall idx, 0 <= idx ->
     exists r, run (get_firmware_code [x01; x02; x03; x04] idx) = ([], Ret r) /\
               forall v, r = Some v -> 0 <= v < 2 ^ 32) /\
  run (get_firmware_code [x01; x02; x03; x04] (-1)) = ([], Raise IndexError).
Proof. exact (get_firmware_code_negative_index [x01; x02; x03; x04]). Defined.

Lemma get_firmware_code_big_endian_witness :
  0 <= 0 /\ (0 + 1) * 4 <= Z.of_nat (length [x01; x02; x03; x04; x05]) /\
  let o := Z.to_nat (0 * 4) in
  run (get_firmware_code [x01; x02; x03; x04; x05] 0)
  = ([], Ret (Some (be32 (nth o [x01; x02; x03; x04; x05] x00)
                         (nth (o + 1) [x01; x02; x03; x04; x05] x00)
                         (nth (o + 2) [x01; x02; x03; x04; x05] x00)
                         (nth (o + 3) [x01; x02; x03; x04; x05] x00)))).
Proof.
  split; [lia|]. split; [simpl; lia|].
  apply get_firmware_code_big_endian; simpl; lia.
Defined.

Lemma scenario_end_to_end_witness :
  let f0 := repeat x00 61 in
  let fs := map (fun p => (p, repeat x00 62)) [x01; x02; x03; x04; x05; x06; x07; x08] in
  length f0 = 61%nat /\ length fs = 8%nat /\
  Forall (fun '(_, f) => length f = 62%nat) fs /\
  exists blob,
    run (reconstruct_data (scenario_buffers f0 fs)) = ([], Ret blob) /\
    length blob = 557%nat /\
    length blob = (61 + 8 * 62)%nat /\
    run (get_firmware_code blob 0)
    = ([], Ret (Some (be32 (nth 0 f0 x00) (nth 1 f0 x00)
                           (nth 2 f0 x00) (nth 3 f0 x00)))) /\
    run (get_firmware_code blob 200) = ([], Ret None).
Proof.
  cbv zeta.
  assert (Hf : Forall (fun '(_, f) => length f = 62%nat)
                 (map (fun p => (p, repeat x00 62))
                      [x01; x02; x03; x04; x05; x06; x07; x08]))
    by (vm_compute; repeat constructor).
  split; [reflexivity|]. split; [reflexivity|]. split; [exact Hf|].
  apply scenario_end_to_end; [reflexivity | reflexivity | exact Hf].
Defined.

Lemma reconstruct_swap_frame_witness :
  length scenario_zero = 9%nat /\
  Forall (fun b => length b = 65%nat) scenario_zero /\
  exists log out out',
    run (reconstruct_data scenario_zero) = (log, Ret out) /\
    run (reconstruct_data (swap_at 1 3 scenario_zero)) = (log, Ret out') /\
    length out = length out' /\
    forall k,
      ~ (payload_start scenario_zero 1 <= k < payload_start scenario_zero 2)%nat ->
      ~ (payload_start scenario_zero 3 <= k < payload_start scenario_zero 4)%nat ->
      nth_error out k = nth_error out' k.
Proof.
  assert (H65 : Forall (fun b => length b = 65%nat) scenario_zero)
    by (vm_compute; repeat constructor).
  split; [reflexivity|]. split; [exact H65|].
  apply reconstruct_swap_frame; [reflexivity | exact H65 | lia | lia | lia].
Defined.

Lemma parse_buffers_first_nine_witness :
  (forall line, In line (firstn 9 (selected_lines ["0a0901"%string])) ->
     exists buf, run (fromhex line) = ([], Ret buf)) /\
  fst (run (parse_buffers ["0a0901"%string])) = [WarnBufferCount 1] /\
  exists bufs, snd (run (parse_buffers ["0a0901"%string])) = Ret bufs.
Proof.
  assert (H : forall line, In line (firstn 9 (selected_lines ["0a0901"%string])) ->
                exists buf, run (fromhex line) = ([], Ret buf)).
  { intros line Hl. simpl in Hl. destruct Hl as [<- | []].
    exists [x0a; x09; x01]. reflexivity. }
  pose proof (parse_buffers_first_nine ["0a0901"%string]) as T. cbv zeta in T.
  destruct T as [Hlog [Hok _]].
  split; [exact H|]. split; [exact Hlog | exact (Hok H)].
Defined.

(** * Further properties of the code *)

(** ** Reassembly with a short first buffer *)

(** X1: a first buffer of at most 3 bytes makes [reconstruct_data] raise
    [IndexError] (at [buf[3]]); with exactly 4 bytes it raises when byte 3
    is [0x01] (at [buf[4]]), contributes nothing when byte 3 is [0xf8], and
    otherwise prints its 4 bytes as unknown and contributes byte 3. *)
Theorem reconstruct_short_buffer0 (buf0 : list byte) (rest : list (list byte)) :
  ((length buf0 <= 3)%nat ->
   run (reconstruct_data (buf0 :: rest)) = ([], Raise IndexError)) /\
  (length buf0 = 4%nat ->
   run (reconstruct_data (buf0 :: rest))
   = if Byte.eqb (nth 3 buf0 x00) x01 then ([], Raise IndexError)
     else if Byte.eqb (nth 3 buf0 x00) xf8
     then ([], Ret (concat (map (skipn 3) rest)))
     else ([UnknownBuffer0Format buf0],
           Ret (nth 3 buf0 x00 :: concat (map (skipn 3) rest)))).
Proof.
  split; intros Hlen.
  - destruct buf0 as [|a [|b [|c [|d t]]]]; simpl in Hlen; try lia; reflexivity.
  - destruct buf0 as [|a [|b [|c [|d [|e t]]]]]; simpl in Hlen; try lia.
    cbn [nth]. unfold run, reconstruct_data. cbn [reconstruct_loop Nat.eqb].
    unfold buffer0_payload.
    rewrite (py_index_Z [a; b; c; d] 3 x00) by (simpl; lia).
    rewrite (py_index_oob [a; b; c; d] 4) by (simpl; lia).
    rewrite !py_slice_from_Z, py_slice_head_Z by lia.
    change (Z.to_nat 3) with 3%nat; change (Z.to_nat 4) with 4%nat;
      change (Z.to_nat 5) with 5%nat. cbn [nth skipn firstn].
    unfold bind at 1 2 3. unfold ret at 1, raise at 1.
    destruct (Byte.eqb d x01) eqn:E1; [reflexivity|].
    cbn beta iota. unfold bind, ret, print. cbn beta iota.
    destruct (Byte.eqb d xf8) eqn:E2; cbn beta iota;
      rewrite reconstruct_loop_tail; reflexivity.
Qed.

(** ** Reading a firmware code at other indices *)

(** [get_firmware_code] below index [-1]. *)
Lemma get_firmware_code_below_minus_one (data : list byte) (idx : Z)
    (Hidx : idx <= -2) :
  let o := Z.of_nat (length data) + idx * 4 in
  run (get_firmware_code data idx)
  = if 0 <=? o
    then ([], Ret (Some (be32 (nth (Z.to_nat o) data x00)
                              (nth (Z.to_nat o + 1) data x00)
                              (nth (Z.to_nat o + 2) data x00)
                              (nth (Z.to_nat o + 3) data x00))))
    else ([], Raise IndexError).
Proof.
  cbv zeta. unfold run, get_firmware_code.
  replace (Z.of_nat (length data) <? idx * 4 + 4) with false
    by (symmetry; apply Z.ltb_ge; lia).
  unfold py_slice, py_slice_bound.
  replace (idx * 4 <? 0) with true by (symmetry; apply Z.ltb_lt; lia).
  replace (idx * 4 + 4 <? 0) with true by (symmetry; apply Z.ltb_lt; lia).
  destruct (0 <=? Z.of_nat (length data) + idx * 4) eqn:E.
  - apply Z.leb_le in E.
    rewrite (Z.max_r 0 (idx * 4 + _)), (Z.max_r 0 (idx * 4 + 4 + _)) by lia.
    replace (idx * 4 + 4 + Z.of_nat (length data) - (idx * 4 + Z.of_nat (length data)))
      with 4 by ring.
    replace (idx * 4 + Z.of_nat (length data))
      with (Z.of_nat (length data) + idx * 4) by ring.
    set (w := firstn (Z.to_nat 4)
                (skipn (Z.to_nat (Z.of_nat (length data) + idx * 4)) data)).
    assert (Hw : length w = 4%nat).
    { unfold w. rewrite length_firstn, length_skipn.
      change (Z.to_nat 4) with 4%nat. lia. }
    rewrite (py_index_Z w 0 x00), (py_index_Z w 1 x00), (py_index_Z w 2 x00),
      (py_index_Z w 3 x00) by (rewrite ?Hw; cbn; lia).
    unfold bind, ret. rewrite shift_or_be32.
    unfold w. rewrite !nth_firstn, !nth_skipn. simpl.
    rewrite Nat.add_0_r. reflexivity.
  - apply Z.leb_gt in E.
    rewrite (Z.max_l 0 (idx * 4 + _)) by lia.
    remember (firstn (Z.to_nat (Z.max 0 (idx * 4 + 4 + Z.of_nat (length data)) - 0))
                (skipn (Z.to_nat 0) data)) as w eqn:Ew.
    assert (Hw : (length w <= 3)%nat).
    { subst w. rewrite length_firstn. lia. }
    destruct w as [|a [|b [|c [|d t]]]]; [| | | | simpl in Hw; lia];
      reflexivity.
Qed.

(** X2: below index [-1] the offset [bindex*4] is negative and Python's
    slice counts it from the end: when [len(data) + bindex*4 >= 0] the code
    is read big-endian from the 4 bytes at that position, otherwise the
    slice is shorter than 4 bytes and indexing it raises [IndexError]. *)
Theorem get_firmware_code_wraparound (data : list byte) (idx : Z)
    (Hidx : idx <= -2) :
  let o := Z.of_nat (length data) + idx * 4 in
  run (get_firmware_code data idx)
  = if 0 <=? o
    then ([], Ret (Some (be32 (nth (Z.to_nat o) data x00)
                              (nth (Z.to_nat o + 1) data x00)
                              (nth (Z.to_nat o + 2) data x00)
                              (nth (Z.to_nat o + 3) data x00))))
    else ([], Raise IndexError).
Proof. exact (get_firmware_code_below_minus_one data idx Hidx). Qed.

(** X3: a slot that lies inside [data] reads the same after more bytes are
    appended: the code depends only on the first [(bindex+1)*4] bytes. *)
Theorem get_firmware_code_append (data more : list byte) (idx : Z)
    (Hidx : 0 <= idx) (Hin : (idx + 1) * 4 <= Z.of_nat (length data)) :
  run (get_firmware_code (data ++ more) idx) = run (get_firmware_code data idx).
Proof.
  rewrite !get_firmware_code_spec by exact Hidx.
  rewrite length_app.
  replace (Z.of_nat (length data + length more) <? idx * 4 + 4) with false
    by (symmetry; apply Z.ltb_ge; lia).
  replace (Z.of_nat (length data) <? idx * 4 + 4) with false
    by (symmetry; apply Z.ltb_ge; lia).
  cbv zeta. rewrite !app_nth1 by lia. reflexivity.
Qed.

(** ** Capture lines written by [bytes.hex()] *)

Lemma hex_digit_char_spec (n : N) :
  (n < 16)%N ->
  hex_val (hex_digit_char n) = Some n /\ hex_space (hex_digit_char n) = false /\
  is_space (hex_digit_char n) = false /\
  Ascii.eqb (hex_digit_char n) " "%char = false.
Proof.
  intros Hn.
  assert (Hk : exists k, (k < 16)%nat /\ n = N.of_nat k)
    by (exists (N.to_nat n); lia).
  destruct Hk as [k [Hk ->]].
  do 16 (destruct k as [|k]; [cbn; repeat split; reflexivity|]). lia.
Qed.

Lemma byte_hex_digits (b : byte) :
  (Byte.to_N b / 16 < 16)%N /\ (Byte.to_N b mod 16 < 16)%N /\
  Byte.of_N (Byte.to_N b / 16 * 16 + Byte.to_N b mod 16) = Some b.
Proof.
  pose proof (Byte.to_N_bounded b) as Hb. split; [|split].
  - apply N.Div0.div_lt_upper_bound. lia.
  - apply N.mod_lt. discriminate.
  - rewrite (N.mul_comm _ 16), <- N.div_mod' . apply Byte.of_to_N.
Qed.

Lemma in_bytes_hex (bs : list byte) (c : ascii) :
  In c (flat_map byte_hex_chars bs) ->
  hex_space c = false /\ is_space c = false /\ Ascii.eqb c " "%char = false.
Proof.
  intros Hin. apply in_flat_map in Hin as [b [_ Hc]].
  destruct (byte_hex_digits b) as [H1 [H2 _]].
  destruct Hc as [<- | [<- | []]].
  - apply hex_digit_char_spec in H1. tauto.
  - apply hex_digit_char_spec in H2. tauto.
Qed.

Lemma fromhex_l_bytes_hex (bs : list byte) log :
  fromhex_l (flat_map byte_hex_chars bs) log = (log, Ret bs).
Proof.
  revert log. induction bs as [|b bs IH]; intros log; [reflexivity|].
  change (flat_map byte_hex_chars (b :: bs))
    with (byte_hex_chars b ++ flat_map byte_hex_chars bs).
  unfold byte_hex_chars. destruct (byte_hex_digits b) as [H1 [H2 H3]].
  destruct (hex_digit_char_spec _ H1) as [V1 [S1 _]].
  destruct (hex_digit_char_spec _ H2) as [V2 _].
  remember (hex_digit_char (Byte.to_N b / 16)) as c1 eqn:E1.
  remember (hex_digit_char (Byte.to_N b mod 16)) as c2 eqn:E2.
  cbn [app fromhex_l]. rewrite S1, V1, V2, H3.
  unfold bind. rewrite IH. reflexivity.
Qed.

Lemma drop_spaces_id (cs : list ascii) :
  Forall (fun c => is_space c = false) cs -> drop_spaces cs = cs.
Proof. intros H. destruct H as [|c t Hc _]; [reflexivity|]. simpl. rewrite Hc. reflexivity. Qed.

Lemma filter_all {A} (f : A -> bool) (l : list A) :
  Forall (fun x => f x = true) l -> filter f l = l.
Proof. induction 1 as [|x t Hx _ IH]; [reflexivity|]. simpl. rewrite Hx, IH. reflexivity. Qed.

Lemma strip_no_space (cs : list ascii) :
  Forall (fun c => is_space c = false) cs ->
  strip (string_of_list_ascii cs) = string_of_list_ascii cs.
Proof.
  intros H. unfold strip. rewrite list_ascii_of_string_of_list_ascii.
  rewrite (drop_spaces_id cs H), drop_spaces_id, rev_involutive; [reflexivity|].
  apply Forall_rev. exact H.
Qed.

(** A line [bytes.hex()] wrote for a report starting [0a 09] is kept
    unchanged by [parse_buffers]'s cleanup and selected. *)
Lemma bytes_hex_line (b : list byte) :
  firstn 2 b = [x0a; x09] ->
  String.eqb (strip (bytes_hex b)) "" = false /\
  remove_blanks (strip (bytes_hex b)) = bytes_hex b /\
  startswith (bytes_hex b) "0a09" = true.
Proof.
  intros Hb.
  assert (Hs : strip (bytes_hex b) = bytes_hex b).
  { apply strip_no_space. apply Forall_forall. intros c Hc.
    apply (in_bytes_hex b c Hc). }
  rewrite Hs. destruct b as [|a [|a' t]]; try discriminate Hb.
  injection Hb as -> ->. split; [reflexivity|].
  split; [|unfold startswith, bytes_hex; cbn [flat_map];
           destruct (flat_map byte_hex_chars t); reflexivity].
  unfold remove_blanks, bytes_hex.
  rewrite list_ascii_of_string_of_list_ascii, filter_all.
  - reflexivity.
  - apply Forall_forall. intros c Hc.
    destruct (in_bytes_hex _ c Hc) as [_ [_ ->]]. reflexivity.
Qed.

Lemma selected_lines_bytes_hex (bufs : list (list byte)) :
  Forall (fun b => firstn 2 b = [x0a; x09]) bufs ->
  selected_lines (map bytes_hex bufs) = map bytes_hex bufs.
Proof.
  unfold selected_lines. induction 1 as [|b bs Hb _ IH]; [reflexivity|].
  destruct (bytes_hex_line b Hb) as [E1 [E2 E3]].
  cbn [map filter]. rewrite E1. cbn [negb map filter]. rewrite E2, E3.
  f_equal. exact IH.
Qed.

Lemma py_map_fromhex_bytes_hex (bufs : list (list byte)) log :
  py_map fromhex (map bytes_hex bufs) log = (log, Ret bufs).
Proof.
  revert log. induction bufs as [|b bs IH]; intros log; [reflexivity|].
  cbn [map py_map]. unfold bind, fromhex at 1, bytes_hex at 1.
  rewrite list_ascii_of_string_of_list_ascii, fromhex_l_bytes_hex, IH.
  reflexivity.
Qed.

(** X4: capture lines written with [bytes.hex()] from reports that start
    with [0a 09] are read back by [parse_buffers] as the first nine of
    those reports, byte for byte; the count warning is printed exactly
    when there are not nine of them. *)
Theorem parse_buffers_hex_roundtrip (bufs : list (list byte))
    (Hhead : Forall (fun b => firstn 2 b = [x0a; x09]) bufs) :
  run (parse_buffers (map bytes_hex bufs))
  = (if Nat.eqb (length bufs) 9 then [] else [WarnBufferCount (length bufs)],
     Ret (firstn 9 bufs)).
Proof.
  unfold run, parse_buffers. fold (selected_lines (map bytes_hex bufs)).
  rewrite (selected_lines_bytes_hex bufs Hhead), length_map, firstn_map.
  unfold bind, print, ret.
  destruct (Nat.eqb (length bufs) 9); cbn [negb];
    rewrite py_map_fromhex_bytes_hex; reflexivity.
Qed.

(** ** Catalog parsing: effects, sections and key lines *)

(** [int()] prints nothing; it returns a value or raises [ValueError]. *)
Lemma py_int_shape (s : string) :
  (exists n, forall log, py_int s log = (log, Ret n)) \/
  (forall log, py_int s log = (log, Raise ValueError)).
Proof.
  unfold py_int.
  destruct (match list_ascii_of_string (strip s) with
            | "-"%char :: t => (-1, t) | "+"%char :: t => (1, t)
            | _ => (1, list_ascii_of_string (strip s)) end) as [sign body].
  destruct (parse_digits body) as [n|]; [left; exists (sign * n)|right]; reflexivity.
Qed.

Lemma split_once_l_no_sep (sep : ascii) (cs a b : list ascii) :
  split_once_l sep cs = (a, b) -> ~ In sep a.
Proof.
  revert a b. induction cs as [|c t IH]; intros a b H; simpl in H.
  - injection H as <- <-. intros [].
  - destruct (Ascii.eqb c sep) eqn:E.
    + injection H as <- <-. intros [].
    + destruct (split_once_l sep t) as [a' b'] eqn:Et. injection H as <- <-.
      intros [Hc | Hin].
      * subst c. rewrite Ascii.eqb_refl in E. discriminate E.
      * exact (IH a' b' eq_refl Hin).
Qed.

Lemma startswith_cons (c : ascii) (cs : list ascii) :
  startswith (string_of_list_ascii (c :: cs)) (String c EmptyString) = true.
Proof.
  unfold startswith. cbn [string_of_list_ascii String.prefix].
  destruct (ascii_dec c c) as [_|n]; [|contradiction n; reflexivity].
  destruct (string_of_list_ascii cs); reflexivity.
Qed.

Lemma startswith_K_inv (line : string) :
  startswith line "K" = true ->
  exists t, list_ascii_of_string line = "K"%char :: t.
Proof.
  unfold startswith. destruct line as [|c s]; [discriminate|].
  cbn [String.prefix]. destruct (ascii_dec "K" c) as [<-|_]; [|discriminate].
  intros _. exists (list_ascii_of_string s). reflexivity.
Qed.

(** The key name [line.split('=', 1)] gives for a line starting with [K]. *)
Lemma split_once_key_name (line k v : string) :
  startswith line "K" = true -> split_once "=" line = (k, v) ->
  exists name, list_ascii_of_string k = "K"%char :: name /\ ~ In "="%char name.
Proof.
  intros HK Hs. destruct (startswith_K_inv line HK) as [t Ht].
  unfold split_once in Hs. rewrite Ht in Hs. simpl in Hs.
  destruct (split_once_l "=" t) as [a b] eqn:Et. injection Hs as <- <-.
  exists a. cbn [list_ascii_of_string]. rewrite list_ascii_of_string_of_list_ascii.
  split; [reflexivity | exact (split_once_l_no_sep _ _ _ _ Et)].
Qed.

(** What one call of the loop does: it prints nothing, never raises
    [IndexError], and only appends records whose key name is [K] followed
    by characters other than [=]. *)
Lemma kb_loop_inv (ls : list string) :
  forall b keys log, exists r,
    kb_loop b ls keys log = (log, r) /\ r <> Raise IndexError /\
    forall ks, r = Ret ks ->
      exists new, ks = keys ++ new /\
        Forall (fun k => exists name,
                  list_ascii_of_string (fst (fst k)) = "K"%char :: name /\
                  ~ In "="%char name) new.
Proof.
  induction ls as [|raw rest IH]; intros b keys log.
  - exists (Ret keys). split; [reflexivity|]. split; [discriminate|].
    intros ks Hks. injection Hks as <-. exists []. rewrite app_nil_r. split; auto.
  - cbn [kb_loop].
    destruct (String.eqb (strip raw) "[KEY]"); [apply IH|].
    set (in' := if startswith (strip raw) "[" then false else b).
    destruct (negb in' || negb (startswith (strip raw) "K")) eqn:E1; [apply IH|].
    destruct (negb (contains "=" (strip raw))); [apply IH|].
    destruct (split_once "=" (strip raw)) as [key_name value] eqn:Hs.
    destruct (Nat.leb 8 (length (split "," value))) eqn:E8; [|apply IH].
    apply Nat.leb_le in E8.
    rewrite (py_index_Z (split "," value) 5 ""%string),
      (py_index_Z (split "," value) 7 ""%string)
      by (try change (Z.to_nat 5) with 5%nat; try change (Z.to_nat 7) with 7%nat; lia).
    change (Z.to_nat 5) with 5%nat; change (Z.to_nat 7) with 7%nat.
    apply orb_false_iff in E1 as [_ EK]. apply negb_false_iff in EK.
    destruct (split_once_key_name _ _ _ EK Hs) as [name Hname].
    unfold bind at 1 2, ret at 1 2. cbv beta iota zeta. unfold bind.
    destruct (py_int_shape (strip (nth 7 (split "," value) ""%string))) as [[n Hn] | Hn];
      rewrite Hn.
    + destruct (IH in' (keys ++ [(key_name, strip (nth 5 (split "," value) ""%string), n)]) log)
        as [r [Er [Hr Hks]]].
      exists r. split; [exact Er|]. split; [exact Hr|].
      intros ks Hk. destruct (Hks ks Hk) as [new [-> Hnew]].
      exists ((key_name, strip (nth 5 (split "," value) ""%string), n) :: new).
      rewrite <- app_assoc. split; [reflexivity|]. constructor; [|exact Hnew].
      exists name. exact Hname.
    + exists (Raise ValueError). split; [reflexivity|]. split; [discriminate|].
      intros ks Hk. discriminate Hk.
Qed.

(** X5: [parse_kb_ini] prints nothing and never raises [IndexError]:
    [parts[5]] and [parts[7]] are read only under [len(parts) >= 8], so
    the only way it fails is the [ValueError] of [int()]. *)
Theorem parse_kb_ini_effects (file_lines : list string) :
  fst (run (parse_kb_ini file_lines)) = [] /\
  snd (run (parse_kb_ini file_lines)) <> Raise IndexError.
Proof.
  destruct (kb_loop_inv file_lines false [] []) as [r [E [Hr _]]].
  unfold run, parse_kb_ini. rewrite E. split; [reflexivity | exact Hr].
Qed.

(** X6: every record [parse_kb_ini] returns has a key name that starts
    with [K] and contains no [=]: the text before the first [=] of a line
    starting with [K]. *)
Theorem parse_kb_ini_key_names (file_lines : list string)
    (keys : list (string * string * Z))
    (Hok : snd (run (parse_kb_ini file_lines)) = Ret keys) :
  Forall (fun '(key_name, _, _) => exists name,
            list_ascii_of_string key_name = "K"%char :: name /\
            ~ In "="%char name) keys.
Proof.
  destruct (kb_loop_inv file_lines false [] []) as [r [E [_ Hks]]].
  unfold run, parse_kb_ini in Hok. rewrite E in Hok.
  destruct (Hks keys Hok) as [new [-> Hnew]].
  eapply Forall_impl; [|exact Hnew]. intros [[k v] n]. exact (fun H => H).
Qed.

(** Outside a [KEY] section, lines up to the next [[KEY]] are skipped. *)
Lemma kb_loop_skip (mid rest : list string) (keys : list (string * string * Z)) :
  Forall (fun l => strip l <> "[KEY]"%string) mid ->
  kb_loop false (mid ++ rest) keys = kb_loop false rest keys.
Proof.
  induction 1 as [|l mid Hl _ IH]; [reflexivity|].
  cbn [app kb_loop].
  replace (String.eqb (strip l) "[KEY]") with false
    by (symmetry; apply String.eqb_neq; exact Hl).
  destruct (startswith (strip l) "["); exact IH.
Qed.

(** X7: only [KEY] sections are read. A section header other than
    [[KEY]] ends the section, and every line after it up to the next
    [[KEY]] is skipped; so are the lines before the first [[KEY]], and a
    file without a [[KEY]] line gives no records. *)
Theorem kb_loop_outside_key_section :
  (forall b hdr mid rest keys,
     startswith (strip hdr) "[" = true -> strip hdr <> "[KEY]"%string ->
     Forall (fun l => strip l <> "[KEY]"%string) mid ->
     kb_loop b (hdr :: mid ++ rest) keys = kb_loop false rest keys) /\
  (forall mid rest,
     Forall (fun l => strip l <> "[KEY]"%string) mid ->
     parse_kb_ini (mid ++ rest) = parse_kb_ini rest) /\
  (forall file_lines,
     Forall (fun l => strip l <> "[KEY]"%string) file_lines ->
     run (parse_kb_ini file_lines) = ([], Ret [])).
Proof.
  split; [|split].
  - intros b hdr mid rest keys Hb Hk Hmid. cbn [kb_loop].
    replace (String.eqb (strip hdr) "[KEY]") with false
      by (symmetry; apply String.eqb_neq; exact Hk).
    rewrite Hb. apply kb_loop_skip. exact Hmid.
  - intros mid rest Hmid. apply kb_loop_skip. exact Hmid.
  - intros file_lines H. unfold run, parse_kb_ini.
    rewrite <- (app_nil_r file_lines), kb_loop_skip by exact H. reflexivity.
Qed.

Lemma split_l_no_sep (sep : ascii) (f : list ascii) :
  ~ In sep f -> split_l sep f = [f].
Proof.
  induction f as [|c t IH]; intros H; [reflexivity|]. simpl.
  destruct (Ascii.eqb c sep) eqn:E.
  - apply Ascii.eqb_eq in E. subst c. exfalso. apply H. left. reflexivity.
  - rewrite IH by (intros Hin; apply H; right; exact Hin). reflexivity.
Qed.

Lemma split_l_app_sep (sep : ascii) (f r : list ascii) :
  ~ In sep f -> split_l sep (f ++ sep :: r) = f :: split_l sep r.
Proof.
  induction f as [|c t IH]; intros H; simpl.
  - rewrite Ascii.eqb_refl. reflexivity.
  - destruct (Ascii.eqb c sep) eqn:E.
    + apply Ascii.eqb_eq in E. subst c. exfalso. apply H. left. reflexivity.
    + rewrite IH by (intros Hin; apply H; right; exact Hin). reflexivity.
Qed.

(** [sep.join(fields).split(sep)] gives the fields back when none of them
    contains [sep]. *)
Lemma split_l_join (sep : ascii) (fs : list (list ascii)) :
  fs <> [] -> Forall (fun f => ~ In sep f) fs -> split_l sep (join_l sep fs) = fs.
Proof.
  intros Hne H. induction H as [|f t Hf Ht IH]; [contradiction Hne; reflexivity|].
  destruct t as [|g t].
  - apply split_l_no_sep. exact Hf.
  - change (join_l sep (f :: g :: t)) with (f ++ sep :: join_l sep (g :: t)).
    rewrite split_l_app_sep by exact Hf. rewrite IH by discriminate. reflexivity.
Qed.

Lemma split_once_l_first (sep : ascii) (name v : list ascii) :
  ~ In sep name -> split_once_l sep (name ++ sep :: v) = (name, v).
Proof.
  induction name as [|c t IH]; intros H; simpl.
  - rewrite Ascii.eqb_refl. reflexivity.
  - destruct (Ascii.eqb c sep) eqn:E.
    + apply Ascii.eqb_eq in E. subst c. exfalso. apply H. left. reflexivity.
    + rewrite IH by (intros Hin; apply H; right; exact Hin). reflexivity.
Qed.

(** X8: inside a [KEY] section, a line that strips to
    [K<name>=<f0>,<f1>,...] (no [=] in the name, no [,] in a field) with
    at least 8 fields appends the record
    [(K<name>, f5.strip(), int(f7.strip()))] when [int()] accepts field 7,
    and the section goes on; with fewer than 8 fields the line is skipped. *)
Theorem kb_loop_key_line (raw : string) (name : list ascii)
    (fields : list (list ascii)) (rest : list string)
    (keys : list (string * string * Z))
    (Hline : list_ascii_of_string (strip raw)
             = "K"%char :: name ++ "="%char :: join_l ","%char fields)
    (Hname : ~ In "="%char name) (Hfields : Forall (fun f => ~ In ","%char f) fields) :
  ((8 <= length fields)%nat -> forall n,
     run (py_int (strip (string_of_list_ascii (nth 7 fields [])))) = ([], Ret n) ->
     forall log,
       kb_loop true (raw :: rest) keys log
       = kb_loop true rest
           (keys ++ [(string_of_list_ascii ("K"%char :: name),
                      strip (string_of_list_ascii (nth 5 fields [])), n)]) log) /\
  ((length fields < 8)%nat -> kb_loop true (raw :: rest) keys = kb_loop true rest keys).
Proof.
  assert (Hs : strip raw = string_of_list_ascii
                 ("K"%char :: name ++ "="%char :: join_l ","%char fields)).
  { rewrite <- Hline, string_of_list_ascii_of_string. reflexivity. }
  assert (Hc : contains "=" (strip raw) = true).
  { unfold contains. rewrite Hline. cbn [existsb]. rewrite existsb_app.
    cbn [existsb]. rewrite Ascii.eqb_refl, !orb_true_r. reflexivity. }
  assert (Hsplit : split_once "=" (strip raw)
                   = (string_of_list_ascii ("K"%char :: name),
                      string_of_list_ascii (join_l ","%char fields))).
  { unfold split_once. rewrite Hline. cbn [split_once_l Ascii.eqb Bool.eqb].
    rewrite split_once_l_first by exact Hname. reflexivity. }
  assert (HK : startswith (strip raw) "K" = true)
    by (rewrite Hs; apply startswith_cons).
  assert (Hkey : String.eqb (strip raw) "[KEY]" = false) by (rewrite Hs; reflexivity).
  assert (Hbr : startswith (strip raw) "[" = false) by (rewrite Hs; reflexivity).
  cbn [kb_loop]. rewrite Hkey, Hbr, Hc, Hsplit, HK. cbn [negb orb].
  split.
  - intros H8 n Hn log.
    assert (Hparts : split "," (string_of_list_ascii (join_l "," fields))
                     = map string_of_list_ascii fields).
    { unfold split. rewrite list_ascii_of_string_of_list_ascii, split_l_join;
        [reflexivity | |exact Hfields].
      destruct fields; [simpl in H8; lia | discriminate]. }
    rewrite Hparts, length_map.
    replace (Nat.leb 8 (length fields)) with true by (symmetry; apply Nat.leb_le; exact H8).
    rewrite (py_index_Z (map string_of_list_ascii fields) 5 ""%string),
      (py_index_Z (map string_of_list_ascii fields) 7 ""%string)
      by (rewrite ?length_map; try change (Z.to_nat 5) with 5%nat;
          try change (Z.to_nat 7) with 7%nat; lia).
    change (Z.to_nat 5) with 5%nat; change (Z.to_nat 7) with 7%nat.
    rewrite !(map_nth string_of_list_ascii fields [] _).
    unfold bind at 1 2, ret at 1 2. cbv beta iota zeta. unfold bind.
    destruct (py_int_shape (strip (string_of_list_ascii (nth 7 fields []))))
      as [[m Hm] | Hm]; unfold run in Hn; rewrite Hm in Hn |- *.
    + injection Hn as <-. reflexivity.
    + discriminate Hn.
  - intros H8.
    replace (Nat.leb 8 (length (split "," (string_of_list_ascii (join_l "," fields)))))
      with false; [reflexivity|].
    symmetry. apply Nat.leb_gt.
    destruct fields as [|f t]; [simpl; lia|].
    unfold split. rewrite list_ascii_of_string_of_list_ascii, split_l_join;
      [rewrite length_map; exact H8 | discriminate | exact Hfields].
Qed.

(** ** [sorted(keys, key=lambda x: x[2])] *)

Definition bindex_le (a b : string * string * Z) : Prop := kb_bindex a <= kb_bindex b.

Lemma insert_by_bindex_perm (x : string * string * Z) (l : list (string * string * Z)) :
  Permutation (x :: l) (insert_by_bindex x l).
Proof.
  induction l as [|y t IH]; [reflexivity|]. simpl.
  destruct (kb_bindex x <? kb_bindex y); [reflexivity|].
  rewrite perm_swap. constructor. exact IH.
Qed.

Lemma insert_by_bindex_forall (P : string * string * Z -> Prop) x l :
  P x -> Forall P l -> Forall P (insert_by_bindex x l).
Proof.
  intros Hx Hl. induction Hl as [|y t Hy Ht IH]; simpl; [constructor; auto|].
  destruct (kb_bindex x <? kb_bindex y); constructor; auto.
Qed.

Lemma insert_by_bindex_sorted x l :
  StronglySorted bindex_le l -> StronglySorted bindex_le (insert_by_bindex x l).
Proof.
  induction 1 as [|y t Ht IH Hy]; simpl; [repeat constructor|].
  destruct (kb_bindex x <? kb_bindex y) eqn:E.
  - apply Z.ltb_lt in E. constructor; [constructor; assumption|].
    constructor; [unfold bindex_le; lia|].
    eapply Forall_impl; [|exact Hy]. unfold bindex_le. intros z Hz. lia.
  - apply Z.ltb_ge in E. constructor; [exact IH|].
    apply insert_by_bindex_forall; [unfold bindex_le; lia | exact Hy].
Qed.

Lemma filter_none (b : Z) (l : list (string * string * Z)) :
  Forall (fun k => kb_bindex k <> b) l -> filter (fun k => kb_bindex k =? b) l = [].
Proof.
  induction 1 as [|y t Hy _ IH]; [reflexivity|]. cbn [filter].
  replace (kb_bindex y =? b) with false by (symmetry; apply Z.eqb_neq; exact Hy).
  exact IH.
Qed.

Lemma insert_by_bindex_filter (b : Z) x l :
  StronglySorted bindex_le l ->
  filter (fun k => kb_bindex k =? b) (insert_by_bindex x l)
  = filter (fun k => kb_bindex k =? b) l ++ filter (fun k => kb_bindex k =? b) [x].
Proof.
  induction 1 as [|y t Ht IH Hy]; [reflexivity|]. cbn [insert_by_bindex].
  destruct (kb_bindex x <? kb_bindex y) eqn:E.
  - apply Z.ltb_lt in E. cbn [filter].
    destruct (kb_bindex x =? b) eqn:Ex.
    + apply Z.eqb_eq in Ex.
      assert (H0 : filter (fun k => kb_bindex k =? b) (y :: t) = []).
      { apply filter_none. constructor; [lia|]. eapply Forall_impl; [|exact Hy].
        unfold bindex_le. intros z Hz. lia. }
      cbn [filter] in H0. rewrite H0. reflexivity.
    + rewrite app_nil_r. reflexivity.
  - cbn [filter]. rewrite IH. destruct (kb_bindex y =? b); reflexivity.
Qed.

Lemma fold_insert_perm (l acc : list (string * string * Z)) :
  Permutation (acc ++ l) (fold_left (fun acc x => insert_by_bindex x acc) l acc).
Proof.
  revert acc. induction l as [|x l IH]; intros acc; simpl.
  - rewrite app_nil_r. reflexivity.
  - rewrite <- IH, <- Permutation_middle. change (x :: acc ++ l) with ((x :: acc) ++ l).
    apply Permutation_app_tail, insert_by_bindex_perm.
Qed.

Lemma fold_insert_sorted (l acc : list (string * string * Z)) :
  StronglySorted bindex_le acc ->
  StronglySorted bindex_le (fold_left (fun acc x => insert_by_bindex x acc) l acc).
Proof.
  revert acc. induction l as [|x l IH]; intros acc H; simpl; [exact H|].
  apply IH, insert_by_bindex_sorted, H.
Qed.

Lemma fold_insert_filter (b : Z) (l acc : list (string * string * Z)) :
  StronglySorted bindex_le acc ->
  filter (fun k => kb_bindex k =? b) (fold_left (fun acc x => insert_by_bindex x acc) l acc)
  = filter (fun k => kb_bindex k =? b) acc ++ filter (fun k => kb_bindex k =? b) l.
Proof.
  revert acc. induction l as [|x l IH]; intros acc H; simpl.
  - rewrite app_nil_r. reflexivity.
  - rewrite IH by (apply insert_by_bindex_sorted, H).
    rewrite insert_by_bindex_filter by exact H. rewrite <- app_assoc.
    cbn [filter]. destruct (kb_bindex x =? b); reflexivity.
Qed.

(** X9: [sort_by_bindex] is [sorted] with [key=x[2]]: it returns the same
    records, in non-decreasing bIndex order, and records with the same
    bIndex keep their order from the catalog (the sort is stable). *)
Theorem sort_by_bindex_stable (keys : list (string * string * Z)) :
  Permutation keys (sort_by_bindex keys) /\
  StronglySorted bindex_le (sort_by_bindex keys) /\
  forall b, filter (fun k => kb_bindex k =? b) (sort_by_bindex keys)
            = filter (fun k => kb_bindex k =? b) keys.
Proof.
  unfold sort_by_bindex. split; [|split].
  - exact (fold_insert_perm keys []).
  - apply fold_insert_sorted. constructor.
  - intros b. rewrite fold_insert_filter by constructor. reflexivity.
Qed.

(** ** [main] *)

Lemma print_samples_spec (data : list byte) (idxs : list Z) out :
  Forall (fun i => 0 <= i) idxs ->
  print_samples data idxs out
  = (out ++ map (fun i => MSample i (i * 4) (code_at data i))
                (filter (fun i => (i + 1) * 4 <=? Z.of_nat (length data)) idxs),
     inl tt).
Proof.
  intros H. revert out. induction H as [|i t Hi _ IH]; intros out.
  - simpl. rewrite app_nil_r. reflexivity.
  - cbn [print_samples]. unfold mbind at 1, lift at 1.
    rewrite get_firmware_code_spec by exact Hi.
    destruct (Z.of_nat (length data) <? i * 4 + 4) eqn:E.
    + apply Z.ltb_lt in E.
      cbn [filter].
      replace ((i + 1) * 4 <=? Z.of_nat (length data)) with false
        by (symmetry; apply Z.leb_gt; lia).
      cbn [map]. rewrite app_nil_r. unfold mbind, mret. apply IH.
    + apply Z.ltb_ge in E.
      cbn [filter].
      replace ((i + 1) * 4 <=? Z.of_nat (length data)) with true
        by (symmetry; apply Z.leb_le; lia).
      cbn [map]. rewrite app_nil_r. unfold mbind, mprint. rewrite IH.
      rewrite <- app_assoc. reflexivity.
Qed.

Lemma print_rows_spec (data : list byte) (keys : list (string * string * Z)) out :
  Forall (fun k => 0 <= kb_bindex k) keys ->
  print_rows data keys out
  = (out ++ map (fun '(k, v, b) => MRow k v b (b * 4) (code_at data b))
                (filter (fun k => (kb_bindex k + 1) * 4 <=? Z.of_nat (length data)) keys),
     inl tt).
Proof.
  intros H. revert out. induction H as [|[[k v] i] t Hi _ IH]; intros out.
  - simpl. rewrite app_nil_r. reflexivity.
  - cbn [print_rows]. unfold mbind at 1, lift at 1. cbn [kb_bindex] in Hi |- *.
    rewrite get_firmware_code_spec by exact Hi.
    destruct (Z.of_nat (length data) <? i * 4 + 4) eqn:E.
    + apply Z.ltb_lt in E.
      cbn [filter kb_bindex].
      replace ((i + 1) * 4 <=? Z.of_nat (length data)) with false
        by (symmetry; apply Z.leb_gt; lia).
      cbn [map]. rewrite app_nil_r. unfold mbind, mret. apply IH.
    + apply Z.ltb_ge in E.
      cbn [filter kb_bindex].
      replace ((i + 1) * 4 <=? Z.of_nat (length data)) with true
        by (symmetry; apply Z.leb_le; lia).
      cbn [map]. rewrite app_nil_r. unfold mbind, mprint. rewrite IH.
      rewrite <- app_assoc. reflexivity.
Qed.

(** X10: without a KB.ini path (or with an empty one), once the capture
    is parsed and reassembled [main] prints the helpers' diagnostics, the
    two counts, the sample header, and then one line per sample slot
    [0, 1, 2, 3, 4, 5, 10, 20, 50, 53] whose 4 bytes lie inside the data,
    in that order, with offset [4*bindex] and the big-endian code; it
    returns normally. *)
Theorem main_sample_mode (argv : list string) (fs : string -> option (list string))
    (lines : list string) (log1 log2 : list diag) (bufs : list (list byte))
    (data : list byte)
    (Hargv : length argv = 2%nat \/
             (2 < length argv)%nat /\ nth 2 argv ""%string = ""%string)
    (Hcap : fs (nth 1 argv ""%string) = Some lines)
    (Hparse : run (parse_buffers lines) = (log1, Ret bufs))
    (Hrec : run (reconstruct_data bufs) = (log2, Ret data)) :
  main argv fs
  = (map MDiag log1 ++ [MParsed (length bufs)] ++ map MDiag log2 ++
     [MReconstructed (length data); MSampleHeader] ++
     map (fun i => MSample i (i * 4) (code_at data i))
         (filter (fun i => (i + 1) * 4 <=? Z.of_nat (length data)) sample_bindexes),
     inl tt).
Proof.
  unfold main, main_prog.
  replace (Nat.ltb (length argv) 2) with false
    by (symmetry; apply Nat.ltb_ge; destruct Hargv; lia).
  unfold mbind at 1, mopen at 1. rewrite Hcap. unfold mret.
  unfold mbind at 1, lift at 1. rewrite Hparse.
  unfold mbind at 1, mprint at 1.
  unfold mbind at 1, lift at 1. rewrite Hrec.
  unfold mbind at 1, mprint at 1.
  destruct Hargv as [H | [H Hp]].
  - replace (2 <? length argv)%nat with false by (symmetry; apply Nat.ltb_ge; lia).
    cbv iota.
    unfold mbind, mprint. rewrite print_samples_spec
      by (unfold sample_bindexes; repeat (apply Forall_cons; [lia|]); apply Forall_nil).
    rewrite <- !app_assoc. reflexivity.
  - replace (2 <? length argv)%nat with true by (symmetry; apply Nat.ltb_lt; lia).
    rewrite Hp. cbv iota. cbn [String.eqb].
    unfold mbind, mprint. rewrite print_samples_spec
      by (unfold sample_bindexes; repeat (apply Forall_cons; [lia|]); apply Forall_nil).
    rewrite <- !app_assoc. reflexivity.
Qed.

(** X11: with a non-empty KB.ini path, once the capture is parsed and
    reassembled and the catalog is read, [main] prints the helpers'
    diagnostics, the two counts, the table header and rule, and then one
    row per catalog record whose slot lies inside the data, in the order
    of [sort_by_bindex], with offset [4*bindex] and the big-endian code;
    records whose slot lies past the data are left out silently. This
    holds when every bIndex is non-negative. *)
Theorem main_table_mode (argv : list string) (fs : string -> option (list string))
    (lines kb_lines : list string) (log1 log2 : list diag) (bufs : list (list byte))
    (data : list byte) (keys : list (string * string * Z))
    (Hargv : (2 < length argv)%nat) (Hkb : nth 2 argv ""%string <> ""%string)
    (Hcap : fs (nth 1 argv ""%string) = Some lines)
    (Hparse : run (parse_buffers lines) = (log1, Ret bufs))
    (Hrec : run (reconstruct_data bufs) = (log2, Ret data))
    (Hkbf : fs (nth 2 argv ""%string) = Some kb_lines)
    (Hkeys : run (parse_kb_ini kb_lines) = ([], Ret keys))
    (Hpos : Forall (fun k => 0 <= kb_bindex k) keys) :
  main argv fs
  = (map MDiag log1 ++ [MParsed (length bufs)] ++ map MDiag log2 ++
     [MReconstructed (length data); MTableHeader; MTableRule] ++
     map (fun '(k, v, b) => MRow k v b (b * 4) (code_at data b))
         (filter (fun k => (kb_bindex k + 1) * 4 <=? Z.of_nat (length data))
                 (sort_by_bindex keys)),
     inl tt).
Proof.
  unfold main, main_prog.
  replace (Nat.ltb (length argv) 2) with false
    by (symmetry; apply Nat.ltb_ge; lia).
  unfold mbind at 1, mopen at 1. rewrite Hcap. unfold mret.
  unfold mbind at 1, lift at 1. rewrite Hparse.
  unfold mbind at 1, mprint at 1.
  unfold mbind at 1, lift at 1. rewrite Hrec.
  unfold mbind at 1, mprint at 1.
  replace (2 <? length argv)%nat with true by (symmetry; apply Nat.ltb_lt; lia).
  cbv iota.
  replace (String.eqb (nth 2 argv ""%string) "") with false
    by (symmetry; apply String.eqb_neq; exact Hkb).
  unfold mbind at 1, mopen at 1. rewrite Hkbf. unfold mret.
  unfold mbind at 1, lift at 1. rewrite Hkeys.
  unfold mbind, mprint. rewrite print_rows_spec.
  - rewrite <- !app_assoc. reflexivity.
  - apply Forall_forall. intros k Hk. rewrite Forall_forall in Hpos. apply Hpos.
    apply (Permutation_in k (Permutation_sym (fold_insert_perm keys []))). exact Hk.
Qed.

Lemma get_firmware_code_minus_one (data : list byte) :
  run (get_firmware_code data (-1)) = ([], Raise IndexError).
Proof.
  unfold run, get_firmware_code.
  replace (Z.of_nat (length data) <? -1 * 4 + 4) with false
    by (symmetry; apply Z.ltb_ge; lia).
  unfold py_slice, py_slice_bound.
  replace (-1 * 4 <? 0) with true by reflexivity.
  replace (-1 * 4 + 4 <? 0) with false by reflexivity.
  replace (Z.to_nat (Z.min (-1 * 4 + 4) (Z.of_nat (length data))
                     - Z.max 0 (-1 * 4 + Z.of_nat (length data))))
    with 0%nat by lia.
  reflexivity.
Qed.

(** Over a list sorted by bIndex that holds a record with bIndex [-1],
    the table loop ends in [IndexError]: the records before it have
    negative bIndex and either print a row or raise. *)
Lemma print_rows_minus_one (data : list byte) (l : list (string * string * Z)) out :
  StronglySorted bindex_le l -> (exists x, In x l /\ kb_bindex x = -1) ->
  snd (print_rows data l out) = inr (MRaised IndexError).
Proof.
  intros Hs. revert out. induction Hs as [|y t Ht IH Hy]; intros out [x [Hx Hb]].
  - destruct Hx.
  - assert (Hle : kb_bindex y <= -1).
    { destruct Hx as [<- | Hx]; [lia|].
      rewrite Forall_forall in Hy. specialize (Hy x Hx). unfold bindex_le in Hy. lia. }
    destruct y as [[k v] i]. cbn [kb_bindex] in Hle.
    cbn [print_rows]. unfold mbind at 1, lift at 1.
    destruct (Z.eq_dec i (-1)) as [-> | Hne].
    + rewrite get_firmware_code_minus_one. reflexivity.
    + pose proof (get_firmware_code_below_minus_one data i ltac:(lia)) as E.
      cbv zeta in E. rewrite E.
      destruct (0 <=? Z.of_nat (length data) + i * 4); [|reflexivity].
      cbv iota beta. unfold mbind, mprint. apply IH.
      exists x. split; [|exact Hb].
      destruct Hx as [<- | Hx]; [cbn [kb_bindex] in Hb; lia | exact Hx].
Qed.

(** X12: with a non-empty KB.ini path, a catalog record with bIndex [-1]
    makes [main] end with an uncaught [IndexError], whatever the capture
    and the other records: the rows are printed in bIndex order, every
    record before it has a negative bIndex, and at [-1] the slice
    [data[-4:0]] is empty. *)
Theorem main_table_bindex_minus_one (argv : list string)
    (fs : string -> option (list string))
    (lines kb_lines : list string) (log1 log2 : list diag) (bufs : list (list byte))
    (data : list byte) (keys : list (string * string * Z))
    (Hargv : (2 < length argv)%nat) (Hkb : nth 2 argv ""%string <> ""%string)
    (Hcap : fs (nth 1 argv ""%string) = Some lines)
    (Hparse : run (parse_buffers lines) = (log1, Ret bufs))
    (Hrec : run (reconstruct_data bufs) = (log2, Ret data))
    (Hkbf : fs (nth 2 argv ""%string) = Some kb_lines)
    (Hkeys : run (parse_kb_ini kb_lines) = ([], Ret keys))
    (Hneg : exists key_name vk_code, In (key_name, vk_code, -1) keys) :
  snd (main argv fs) = inr (MRaised IndexError).
Proof.
  unfold main, main_prog.
  replace (Nat.ltb (length argv) 2) with false
    by (symmetry; apply Nat.ltb_ge; lia).
  unfold mbind at 1, mopen at 1. rewrite Hcap. unfold mret.
  unfold mbind at 1, lift at 1. rewrite Hparse.
  unfold mbind at 1, mprint at 1.
  unfold mbind at 1, lift at 1. rewrite Hrec.
  unfold mbind at 1, mprint at 1.
  replace (2 <? length argv)%nat with true by (symmetry; apply Nat.ltb_lt; lia).
  cbv iota.
  replace (String.eqb (nth 2 argv ""%string) "") with false
    by (symmetry; apply String.eqb_neq; exact Hkb).
  unfold mbind at 1, mopen at 1. rewrite Hkbf. unfold mret.
  unfold mbind at 1, lift at 1. rewrite Hkeys.
  unfold mbind at 1 2, mprint at 1 2. cbv beta iota.
  apply print_rows_minus_one.
  - apply fold_insert_sorted. constructor.
  - destruct Hneg as [k [v Hin]]. exists (k, v, -1). split; [|reflexivity].
    apply (Permutation_in _ (fold_insert_perm keys [])). exact Hin.
Qed.

(** ** Failing capture lines *)

Lemma fromhex_l_no_index (n : nat) :
  forall cs, (length cs <= n)%nat -> snd (fromhex_l cs []) <> Raise IndexError.
Proof.
  induction n as [|n IH]; intros cs Hlen.
  - destruct cs; [discriminate | simpl in Hlen; lia].
  - destruct cs as [|c t]; [discriminate|]. simpl in Hlen. cbn [fromhex_l].
    destruct (hex_space c); [apply IH; lia|].
    destruct t as [|c' t']; [discriminate|].
    destruct (hex_val c), (hex_val c'); try discriminate.
    destruct (Byte.of_N _); [|discriminate].
    unfold bind. simpl in Hlen. specialize (IH t' ltac:(lia)).
    destruct (fromhex_l t' []) as [l0 [r|e]]; [discriminate | exact IH].
Qed.

Lemma py_map_fromhex_no_index (lines : list string) :
  snd (py_map fromhex lines []) <> Raise IndexError.
Proof.
  induction lines as [|line lines IH]; [discriminate|].
  cbn [py_map]. unfold bind.
  destruct (fromhex_spec line []) as [E1 _]. rewrite E1.
  destruct (snd (fromhex line [])) as [b|e] eqn:Eb.
  - destruct (py_map_fromhex lines []) as [F1 _]. rewrite F1.
    destruct (snd (py_map fromhex lines [])); [discriminate | exact IH].
  - pose proof (fromhex_l_no_index _ (list_ascii_of_string line) (le_n _)) as H.
    fold (fromhex line) in H. rewrite Eb in H.
    cbn [snd]. intros Hc. injection Hc as ->. apply H. reflexivity.
Qed.

Lemma Forall2_in_l {A B} (R : A -> B -> Prop) (l1 : list A) (l2 : list B) (x : A) :
  Forall2 R l1 l2 -> In x l1 -> exists y, R x y.
Proof.
  induction 1 as [|a b t1 t2 Hab _ IH]; intros Hin; [destruct Hin|].
  destruct Hin as [<- | Hin]; eauto.
Qed.

(** X13: [parse_buffers] never raises [IndexError]; when one of the (at
    most nine) selected capture lines has an odd number of hex digits,
    [bytes.fromhex] rejects it and [parse_buffers] raises [ValueError]. *)
Theorem parse_buffers_odd_line (file_lines : list string) :
  snd (run (parse_buffers file_lines)) <> Raise IndexError /\
  (forall line, In line (firstn 9 (selected_lines file_lines)) ->
     Nat.odd (hex_digit_count line) = true ->
     snd (run (parse_buffers file_lines)) = Raise ValueError).
Proof.
  rewrite parse_buffers_outcome.
  pose proof (py_map_fromhex_no_index (firstn 9 (selected_lines file_lines))) as Hni.
  split; [exact Hni|].
  intros line Hin Hodd.
  destruct (snd (py_map fromhex (firstn 9 (selected_lines file_lines)) []))
    as [bs|[|]] eqn:E; [|contradiction Hni; reflexivity | reflexivity].
  exfalso. destruct (py_map_fromhex (firstn 9 (selected_lines file_lines)) []) as [_ F].
  destruct (Forall2_in_l _ _ _ line (F bs E) Hin) as [buf Hbuf].
  destruct (fromhex_spec line []) as [_ Hlen].
  unfold run in Hbuf. rewrite Hbuf in Hlen. specialize (Hlen buf eq_refl).
  rewrite <- Hlen, Nat.odd_mul in Hodd. discriminate Hodd.
Qed.

(** ** Witnesses for the further properties *)

Lemma get_firmware_code_wraparound_witness :
  -2 <= -2 /\
  let data := [x01; x02; x03; x04; x05; x06; x07; x08] in
  let o := Z.of_nat (length data) + -2 * 4 in
  run (get_firmware_code data (-2))
  = if 0 <=? o
    then ([], Ret (Some (be32 (nth (Z.to_nat o) data x00)
                              (nth (Z.to_nat o + 1) data x00)
                              (nth (Z.to_nat o + 2) data x00)
                              (nth (Z.to_nat o + 3) data x00))))
    else ([], Raise IndexError).
Proof.
  split; [lia|]. cbv zeta.
  exact (get_firmware_code_wraparound [x01; x02; x03; x04; x05; x06; x07; x08] (-2)
           ltac:(lia)).
Defined.

Lemma get_firmware_code_append_witness :
  0 <= 0 /\ (0 + 1) * 4 <= Z.of_nat (length [x01; x02; x03; x04]) /\
  run (get_firmware_code ([x01; x02; x03; x04] ++ [x05]) 0)
  = run (get_firmware_code [x01; x02; x03; x04] 0).
Proof.
  split; [lia|]. split; [simpl; lia|].
  apply get_firmware_code_append; simpl; lia.
Defined.

Lemma parse_buffers_hex_roundtrip_witness :
  Forall (fun b => firstn 2 b = [x0a; x09])
         [[x0a; x09; x01; xf8; x07]; [x0a; x09; x02; x08]] /\
  run (parse_buffers (map bytes_hex [[x0a; x09; x01; xf8; x07]; [x0a; x09; x02; x08]]))
  = (if Nat.eqb (length [[x0a; x09; x01; xf8; x07]; [x0a; x09; x02; x08]]) 9 then []
     else [WarnBufferCount (length [[x0a; x09; x01; xf8; x07]; [x0a; x09; x02; x08]])],
     Ret (firstn 9 [[x0a; x09; x01; xf8; x07]; [x0a; x09; x02; x08]])).
Proof.
  assert (H : Forall (fun b => firstn 2 b = [x0a; x09])
                [[x0a; x09; x01; xf8; x07]; [x0a; x09; x02; x08]])
    by (repeat constructor).
  split; [exact H|]. exact (parse_buffers_hex_roundtrip _ H).
Defined.

Lemma parse_kb_ini_key_names_witness :
  snd (run (parse_kb_ini ["[KEY]"; "K1=0,0,10,10,0,0x41,0,5"]%string))
  = Ret [("K1"%string, "0x41"%string, 5)] /\
  Forall (fun '(key_name, _, _) => exists name,
            list_ascii_of_string key_name = "K"%char :: name /\
            ~ In "="%char name) [("K1"%string, "0x41"%string, 5)].
Proof.
  assert (H : snd (run (parse_kb_ini ["[KEY]"; "K1=0,0,10,10,0,0x41,0,5"]%string))
              = Ret [("K1"%string, "0x41"%string, 5)]) by reflexivity.
  split; [exact H|]. exact (parse_kb_ini_key_names _ _ H).
Defined.

Lemma kb_loop_key_line_witness :
  let raw := "K1=0,0,10,10,0,0x41,0,5"%string in
  let name := ["1"%char] in
  let fields := map list_ascii_of_string ["0"; "0"; "10"; "10"; "0"; "0x41"; "0"; "5"]%string in
  list_ascii_of_string (strip raw) = "K"%char :: name ++ "="%char :: join_l ","%char fields /\
  ~ In "="%char name /\ Forall (fun f => ~ In ","%char f) fields /\
  ((8 <= length fields)%nat -> forall n,
     run (py_int (strip (string_of_list_ascii (nth 7 fields [])))) = ([], Ret n) ->
     forall log,
       kb_loop true (raw :: []) [] log
       = kb_loop true []
           ([] ++ [(string_of_list_ascii ("K"%char :: name),
                    strip (string_of_list_ascii (nth 5 fields [])), n)]) log) /\
  ((length fields < 8)%nat -> kb_loop true (raw :: []) [] = kb_loop true [] []).
Proof.
  cbv zeta.
  assert (H1 : list_ascii_of_string (strip "K1=0,0,10,10,0,0x41,0,5"%string)
               = "K"%char :: ["1"%char] ++ "="%char
                 :: join_l ","%char (map list_ascii_of_string
                      ["0"; "0"; "10"; "10"; "0"; "0x41"; "0"; "5"]%string))
    by reflexivity.
  assert (H2 : ~ In "="%char ["1"%char]) by (intros [H|[]]; discriminate H).
  assert (H3 : Forall (fun f => ~ In ","%char f)
                 (map list_ascii_of_string
                    ["0"; "0"; "10"; "10"; "0"; "0x41"; "0"; "5"]%string)).
  { apply Forall_forall. intros f Hf Hc.
    assert (E : existsb (Ascii.eqb ","%char) f = true)
      by (apply existsb_exists; exists ","%char; split; [exact Hc | apply Ascii.eqb_refl]).
    simpl in Hf. repeat destruct Hf as [<- | Hf]; try contradiction Hf;
      simpl in E; discriminate E. }
  split; [exact H1|]. split; [exact H2|]. split; [exact H3|].
  exact (kb_loop_key_line _ _ _ [] [] H1 H2 H3).
Defined.

Lemma main_sample_mode_witness :
  let argv := ["decode_capture.py"; "cap.txt"]%string in
  let lines := [bytes_hex [x0a; x09; x01; xf8; x01; x02; x03; x04; x05]] in
  let fs := fun p => if String.eqb p "cap.txt" then Some lines else None in
  let bufs := [[x0a; x09; x01; xf8; x01; x02; x03; x04; x05]] in
  let data := [x01; x02; x03; x04; x05] in
  (length argv = 2%nat \/ (2 < length argv)%nat /\ nth 2 argv ""%string = ""%string) /\
  fs (nth 1 argv ""%string) = Some lines /\
  run (parse_buffers lines) = ([WarnBufferCount 1], Ret bufs) /\
  run (reconstruct_data bufs) = ([], Ret data) /\
  main argv fs
  = (map MDiag [WarnBufferCount 1] ++ [MParsed (length bufs)] ++ map MDiag [] ++
     [MReconstructed (length data); MSampleHeader] ++
     map (fun i => MSample i (i * 4) (code_at data i))
         (filter (fun i => (i + 1) * 4 <=? Z.of_nat (length data)) sample_bindexes),
     inl tt).
Proof.
  cbv zeta.
  assert (H1 : length ["decode_capture.py"; "cap.txt"]%string = 2%nat \/
               (2 < length ["decode_capture.py"; "cap.txt"]%string)%nat /\
               nth 2 ["decode_capture.py"; "cap.txt"]%string ""%string = ""%string)
    by (left; reflexivity).
  split; [exact H1|]. split; [reflexivity|]. split; [reflexivity|].
  split; [reflexivity|].
  apply main_sample_mode with (lines := [bytes_hex [x0a; x09; x01; xf8; x01; x02; x03; x04; x05]]);
    [exact H1 | reflexivity | reflexivity | reflexivity].
Defined.

Lemma main_table_mode_witness :
  let argv := ["decode_capture.py"; "cap.txt"; "KB.ini"]%string in
  let lines := [bytes_hex [x0a; x09; x01; xf8; x01; x02; x03; x04; x05; x06; x07; x08]] in
  let kb_lines := ["[KEY]"; "K2=0,0,10,10,0,0x42,0,1"; "K1=0,0,10,10,0,0x41,0,0";
                   "K3=0,0,10,10,0,0x43,0,7"]%string in
  let fs := fun p => if String.eqb p "cap.txt" then Some lines
                     else if String.eqb p "KB.ini" then Some kb_lines else None in
  let bufs := [[x0a; x09; x01; xf8; x01; x02; x03; x04; x05; x06; x07; x08]] in
  let data := [x01; x02; x03; x04; x05; x06; x07; x08] in
  let keys := [("K2"%string, "0x42"%string, 1); ("K1"%string, "0x41"%string, 0);
               ("K3"%string, "0x43"%string, 7)] in
  (2 < length argv)%nat /\ nth 2 argv ""%string <> ""%string /\
  fs (nth 1 argv ""%string) = Some lines /\
  run (parse_buffers lines) = ([WarnBufferCount 1], Ret bufs) /\
  run (reconstruct_data bufs) = ([], Ret data) /\
  fs (nth 2 argv ""%string) = Some kb_lines /\
  run (parse_kb_ini kb_lines) = ([], Ret keys) /\
  Forall (fun k => 0 <= kb_bindex k) keys /\
  main argv fs
  = (map MDiag [WarnBufferCount 1] ++ [MParsed (length bufs)] ++ map MDiag [] ++
     [MReconstructed (length data); MTableHeader; MTableRule] ++
     map (fun '(k, v, b) => MRow k v b (b * 4) (code_at data b))
         (filter (fun k => (kb_bindex k + 1) * 4 <=? Z.of_nat (length data))
                 (sort_by_bindex keys)),
     inl tt).
Proof.
  cbv zeta.
  assert (Hpos : Forall (fun k => 0 <= kb_bindex k)
                   [("K2"%string, "0x42"%string, 1); ("K1"%string, "0x41"%string, 0);
                    ("K3"%string, "0x43"%string, 7)])
    by (repeat (apply Forall_cons; [cbn; lia|]); apply Forall_nil).
  assert (Hkb : nth 2 ["decode_capture.py"; "cap.txt"; "KB.ini"]%string ""%string
                <> ""%string) by discriminate.
  split; [simpl; lia|]. split; [exact Hkb|].
  do 5 (split; [reflexivity|]). split; [exact Hpos|].
  apply main_table_mode
    with (lines := [bytes_hex [x0a; x09; x01; xf8; x01; x02; x03; x04; x05; x06; x07; x08]])
         (kb_lines := ["[KEY]"; "K2=0,0,10,10,0,0x42,0,1"; "K1=0,0,10,10,0,0x41,0,0";
                       "K3=0,0,10,10,0,0x43,0,7"]%string);
    [simpl; lia | exact Hkb | reflexivity | reflexivity | reflexivity | reflexivity
    | reflexivity | exact Hpos].
Defined.

Lemma main_table_bindex_minus_one_witness :
  let argv := ["decode_capture.py"; "cap.txt"; "KB.ini"]%string in
  let lines := [bytes_hex [x0a; x09; x01; xf8; x01; x02; x03; x04; x05; x06; x07; x08]] in
  let kb_lines := ["[KEY]"; "K1=0,0,10,10,0,0x41,0,0"; "K9=0,0,10,10,0,0x49,0,-1"]%string in
  let fs := fun p => if String.eqb p "cap.txt" then Some lines
                     else if String.eqb p "KB.ini" then Some kb_lines else None in
  let bufs := [[x0a; x09; x01; xf8; x01; x02; x03; x04; x05; x06; x07; x08]] in
  let data := [x01; x02; x03; x04; x05; x06; x07; x08] in
  let keys := [("K1"%string, "0x41"%string, 0); ("K9"%string, "0x49"%string, -1)] in
  (2 < length argv)%nat /\ nth 2 argv ""%string <> ""%string /\
  fs (nth 1 argv ""%string) = Some lines /\
  run (parse_buffers lines) = ([WarnBufferCount 1], Ret bufs) /\
  run (reconstruct_data bufs) = ([], Ret data) /\
  fs (nth 2 argv ""%string) = Some kb_lines /\
  run (parse_kb_ini kb_lines) = ([], Ret keys) /\
  (exists key_name vk_code, In (key_name, vk_code, -1) keys) /\
  snd (main argv fs) = inr (MRaised IndexError).
Proof.
  cbv zeta.
  assert (Hin : exists key_name vk_code,
            In (key_name, vk_code, -1)
               [("K1"%string, "0x41"%string, 0); ("K9"%string, "0x49"%string, -1)])
    by (exists "K9"%string, "0x49"%string; right; left; reflexivity).
  assert (Hkb : nth 2 ["decode_capture.py"; "cap.txt"; "KB.ini"]%string ""%string
                <> ""%string) by discriminate.
  split; [simpl; lia|]. split; [exact Hkb|].
  do 5 (split; [reflexivity|]). split; [exact Hin|].
  apply main_table_bindex_minus_one
    with (lines := [bytes_hex [x0a; x09; x01; xf8; x01; x02; x03; x04; x05; x06; x07; x08]])
         (kb_lines := ["[KEY]"; "K1=0,0,10,10,0,0x41,0,0"; "K9=0,0,10,10,0,0x49,0,-1"]%string)
         (log1 := [WarnBufferCount 1]) (log2 := [])
         (bufs := [[x0a; x09; x01; xf8; x01; x02; x03; x04; x05; x06; x07; x08]])
         (data := [x01; x02; x03; x04; x05; x06; x07; x08])
         (keys := [("K1"%string, "0x41"%string, 0); ("K9"%string, "0x49"%string, -1)]);
    [simpl; lia | exact Hkb | reflexivity | reflexivity | reflexivity | reflexivity
    | reflexivity | exact Hin].
Defined.
